(** * MiB / dataset/dent.py: geometry of the image and mask resizing

    A shallow embedding of [CocoDataset.resize_image],
    [CocoDataset.resize_mask], [CocoDataset.resize] and of the label-map
    loop of [CocoDataset.__getitem__].

    Python values are modelled as the interpreter has them:
    - an [int] is a [Z];
    - a [float] is an IEEE binary64 number, the primitive [float] of Rocq,
      so that [/], [*] and [round] compute bit for bit what CPython does;
    - a number whose type is decided at run time (the scale factor is the
      int [1] or a float) is a [pynum];
    - an exception is a value of [exn], a call that may raise returns an
      [outcome];
    - the list object [padding], which [resize_mask] mutates, lives in a
      store of list objects and is passed by reference. *)

From Stdlib Require Import ZArith Floats Bool String Lia.
From stdpp Require Import base list.

Local Open Scope Z_scope.

(** ** Exceptions *)

Inductive exn : Type :=
| ModeNotSupported (mode : string)   (* raise Exception("Mode {} not supported") *)
| AssertionError                     (* assert min_dim % 64 == 0 *)
| TypeError
| ValueError
| ZeroDivisionError
| OverflowError
| IndexError
| RuntimeError.

Inductive outcome (A : Type) : Type :=
| Ret (a : A)
| Raise (e : exn).
Arguments Ret {A} a.
Arguments Raise {A} e.

Definition obind {A B} (o : outcome A) (k : A -> outcome B) : outcome B :=
  match o with
  | Ret a => k a
  | Raise e => Raise e
  end.

Definition returns {A} (o : outcome A) : bool :=
  match o with Ret _ => true | Raise _ => false end.

(** ** Python numbers *)

Module Py.

Inductive pynum : Type :=
| PyInt (z : Z)
| PyFloat (f : float).

(** The exact value of a finite binary64 number is [m * 2^e]. *)
Definition Z2SF (z : Z) : spec_float :=
  match z with
  | Z0 => S754_zero false
  | Zpos p => S754_finite false p 0
  | Zneg p => S754_finite true p 0
  end.

(** [float(z)]: the nearest binary64 number, ties to even; CPython raises
    [OverflowError] when it would be infinite. *)
Definition float_of_int (z : Z) : outcome float :=
  match binary_normalize prec emax z 0 false with
  | S754_infinity _ => Raise OverflowError
  | x => Ret (SF2Prim x)
  end.

(** [a / b] on two ints (true division): the correctly rounded quotient. *)
Definition int_truediv (a b : Z) : outcome float :=
  if b =? 0 then Raise ZeroDivisionError
  else match SFdiv prec emax (Z2SF a) (Z2SF b) with
       | S754_infinity _ => Raise OverflowError
       | x => Ret (SF2Prim x)
       end.

(** Round half to even of the rational [n / d], [d > 0]. *)
Definition round_half_even (n d : Z) : Z :=
  let q := n / d in
  match (2 * (n mod d)) ?= d with
  | Lt => q
  | Gt => q + 1
  | Eq => if Z.even q then q else q + 1
  end.

(** [round(x)] on a float: an int; [inf] and [nan] raise. *)
Definition round_float (f : float) : outcome Z :=
  match Prim2SF f with
  | S754_zero _ => Ret 0
  | S754_infinity _ => Raise OverflowError
  | S754_nan => Raise ValueError
  | S754_finite s m e =>
      let a := if 0 <=? e then Zpos m * 2 ^ e
               else round_half_even (Zpos m) (2 ^ (- e)) in
      Ret (if s then - a else a)
  end.

Definition round (x : pynum) : outcome Z :=
  match x with
  | PyInt z => Ret z
  | PyFloat f => round_float f
  end.

(** Comparison of an int with a float is exact in CPython. *)
Definition compare_int_float (z : Z) (f : float) : option comparison :=
  match Prim2SF f with
  | S754_zero _ => Some (z ?= 0)
  | S754_infinity s => Some (if s then Gt else Lt)
  | S754_nan => None
  | S754_finite s m e =>
      let v := if s then Zneg m else Zpos m in
      if 0 <=? e then Some (z ?= v * 2 ^ e)
      else Some (z * 2 ^ (- e) ?= v)
  end.

Definition compare (a b : pynum) : option comparison :=
  match a, b with
  | PyInt x, PyInt y => Some (x ?= y)
  | PyInt x, PyFloat g => compare_int_float x g
  | PyFloat f, PyInt y => option_map CompOpp (compare_int_float y f)
  | PyFloat f, PyFloat g =>
      match PrimFloat.compare f g with
      | FEq => Some Eq
      | FLt => Some Lt
      | FGt => Some Gt
      | FNotComparable => None
      end
  end.

Definition lt (a b : pynum) : bool :=
  match compare a b with Some Lt => true | _ => false end.
Definition gt (a b : pynum) : bool := lt b a.
Definition eq (a b : pynum) : bool :=
  match compare a b with Some Eq => true | _ => false end.
Definition ne (a b : pynum) : bool := negb (eq a b).

(** [max(a, b)] keeps [a] unless [b > a]. *)
Definition max (a b : pynum) : pynum := if gt b a then b else a.

(** [bool(x)] *)
Definition truthy (x : pynum) : bool := ne x (PyInt 0).

(** [h * x] for an int [h]. *)
Definition int_mul (h : Z) (x : pynum) : outcome pynum :=
  match x with
  | PyInt z => Ret (PyInt (h * z))
  | PyFloat f => obind (float_of_int h) (fun hf => Ret (PyFloat (hf * f)%float))
  end.

End Py.

(** ** NumPy arrays

    An array is its shape, its element type and its entries, read by index.
    Only what the source calls is modelled: [np.zeros], [np.pad] with
    [mode='constant'], basic slicing of the two leading axes, [astype],
    [np.transpose] and the broadcasting of [np.maximum]. *)

Module Np.

Inductive dtype : Type :=
| Bool_ | UInt8 | UInt16 | Int32 | Int64 | Float32 | Float64.

Record ndarray (A : Type) : Type := mk_ndarray {
  shape : list Z;
  dtype_of : dtype;
  item : list Z -> A
}.
Arguments mk_ndarray {A} shape dtype_of item.
Arguments shape {A} _.
Arguments dtype_of {A} _.
Arguments item {A} _ _.

Definition ndim {A} (a : ndarray A) : nat := length (shape a).

(** [h, w = a.shape[:2]] *)
Definition shape2 {A} (a : ndarray A) : outcome (Z * Z) :=
  match shape a with
  | h :: w :: _ => Ret (h, w)
  | _ => Raise ValueError
  end.

(** [np.zeros(shape)]: float64 zeros. *)
Definition zeros (sh : list Z) : ndarray Z := mk_ndarray sh Float64 (fun _ => 0).

(** [a.astype(dt)] *)
Definition astype {A} (cast : dtype -> A -> A) (a : ndarray A) (dt : dtype) : ndarray A :=
  mk_ndarray (shape a) dt (fun i => cast dt (item a i)).

(** *** [np.pad(a, pad_width, mode='constant', constant_values=0)] *)

(** [pad_width] is broadcast to one pair per axis. *)
Definition pad_pairs (n : nat) (pad_width : list (Z * Z)) : option (list (Z * Z)) :=
  if Nat.eqb (length pad_width) n then Some pad_width
  else match pad_width with
       | [p] => Some (repeat p n)
       | _ => None
       end.

Definition pair_negative (p : Z * Z) : bool := (fst p <? 0) || (snd p <? 0).

(** Is [i] an index of the original array once [before] entries have been
    put in front of each axis? *)
Fixpoint inside (sh : list Z) (pw : list (Z * Z)) (i : list Z) : bool :=
  match sh, pw, i with
  | d :: sh', p :: pw', k :: i' =>
      (fst p <=? k) && (k <? fst p + d) && inside sh' pw' i'
  | _, _, _ => true
  end.

Definition pad {A} (zero : A) (a : ndarray A) (pad_width : list (Z * Z))
  : outcome (ndarray A) :=
  match pad_pairs (ndim a) pad_width with
  | None => Raise ValueError
  | Some pw =>
      if existsb pair_negative pw then Raise ValueError
      else Ret (mk_ndarray
                  (zip_with (fun d p => fst p + d + snd p) (shape a) pw)
                  (dtype_of a)
                  (fun i => if inside (shape a) pw i
                            then item a (zip_with (fun k p => k - fst p) i pw)
                            else zero))
  end.

(** *** Basic slicing [a[y1:y2, x1:x2]] *)

(** Python clips the bounds of a slice to the axis and counts a negative
    bound from the end. *)
Definition clip_bound (v n : Z) : Z :=
  if v <? 0 then Z.max (v + n) 0 else Z.min v n.

Definition slice_start (start n : Z) : Z := clip_bound start n.
Definition slice_len (start stop n : Z) : Z :=
  Z.max 0 (clip_bound stop n - clip_bound start n).

Definition slice2 {A} (a : ndarray A) (y1 y2 x1 x2 : Z) : outcome (ndarray A) :=
  match shape a with
  | h :: w :: rest =>
      Ret (mk_ndarray
             (slice_len y1 y2 h :: slice_len x1 x2 w :: rest)
             (dtype_of a)
             (fun i => match i with
                       | r :: c :: i' =>
                           item a (slice_start y1 h + r :: slice_start x1 w + c :: i')
                       | _ => item a i
                       end))
  | _ => Raise IndexError
  end.

(** *** [np.transpose(a, (2, 0, 1))] *)
Definition transpose_201 {A} (a : ndarray A) : outcome (ndarray A) :=
  match shape a with
  | [h; w; c] =>
      Ret (mk_ndarray [c; h; w] (dtype_of a)
             (fun i => match i with
                       | [k; r; s] => item a [r; s; k]
                       | _ => item a i
                       end))
  | _ => Raise ValueError
  end.

(** *** Broadcasting *)

(** Shapes are aligned on their last axes; two extents agree when they are
    equal or one of them is 1. *)
Fixpoint broadcast_rev (s t : list Z) : option (list Z) :=
  match s, t with
  | [], _ => Some t
  | _, [] => Some s
  | d :: s', e :: t' =>
      match broadcast_rev s' t' with
      | None => None
      | Some r =>
          if d =? e then Some (d :: r)
          else if d =? 1 then Some (e :: r)
          else if e =? 1 then Some (d :: r)
          else None
      end
  end.

Definition broadcast_shapes (s t : list Z) : option (list Z) :=
  option_map (@rev Z) (broadcast_rev (rev s) (rev t)).

(** The index read in an operand of shape [sh] for the index [i] of the
    broadcast result: the trailing axes of [i], an axis of extent 1 always
    read at 0. *)
Definition operand_index (sh i : list Z) : list Z :=
  zip_with (fun d k => if d =? 1 then 0 else k) sh
           (drop (length i - length sh)%nat i).

End Np.

(** ** The interpreter state

    Two pieces of state are visible to the code: the list objects it creates
    and mutates ([padding]), and the process-wide generator of the [random]
    module. *)

Definition loc := nat.

(** One entry of [padding]: the pair (before, after) of an axis. *)
Abbreviation pair_t := (Z * Z)%type (only parsing).

Record world : Type := mk_world {
  lists : list (list pair_t);   (* the list objects, by address *)
  random_raw : nat -> N;        (* what the generator will produce *)
  random_pos : nat              (* how much of it has been consumed *)
}.

Definition M (A : Type) : Type := world -> world * outcome A.

Definition ret {A} (a : A) : M A := fun s => (s, Ret a).
Definition raise {A} (e : exn) : M A := fun s => (s, Raise e).
Definition lift {A} (o : outcome A) : M A := fun s => (s, o).
Definition bind {A B} (m : M A) (k : A -> M B) : M B :=
  fun s => match m s with
           | (s', Ret a) => k a s'
           | (s', Raise e) => (s', Raise e)
           end.

Declare Scope py_scope.
Delimit Scope py_scope with py.
Notation "x <- m ;; k" := (bind m (fun x => k))
  (at level 20, m at level 99, k at level 200, only parsing) : py_scope.
Notation "' p <- m ;; k" := (bind m (fun p => k))
  (at level 20, p pattern, m at level 99, k at level 200, only parsing) : py_scope.

(** *** List objects *)

(** A list display [[a, b, c]] creates a new object. *)
Definition push_list (l : list pair_t) (s : world) : world :=
  mk_world (lists s ++ [l]) (random_raw s) (random_pos s).

Definition new_list (l : list pair_t) : M loc :=
  fun s => (push_list l s, Ret (length (lists s))).

Definition read_list (p : loc) : M (list pair_t) :=
  fun s => match lists s !! p with
           | Some l => (s, Ret l)
           | None => (s, Raise RuntimeError)   (* no such object *)
           end.

(** [l.pop(i)] for [i >= 0]: removes the entry in place, [IndexError] when
    there is none. *)
Definition list_pop (p : loc) (i : nat) : M pair_t :=
  fun s => match lists s !! p with
           | Some l =>
               match l !! i with
               | Some x =>
                   (mk_world (<[p := delete i l]> (lists s))
                             (random_raw s) (random_pos s), Ret x)
               | None => (s, Raise IndexError)
               end
           | None => (s, Raise RuntimeError)
           end.

(** *** The [random] module *)

(** The state after one more draw, and the draw below [n]. *)
Definition advance (s : world) : world :=
  mk_world (lists s) (random_raw s) (S (random_pos s)).

Definition randbelow (n : Z) (s : world) : Z :=
  Z.of_N (random_raw s (random_pos s)) mod n.


(** [random.randint(a, b)]: [ValueError] on an empty range, else
    [a + _randbelow(b - a + 1)]; whatever the generator holds, the draw is
    below the width. *)
Definition randint (a b : Z) : M Z :=
  fun s =>
    if b <? a then (s, Raise ValueError)
    else (advance s, Ret (a + randbelow (b - a + 1) s)).

(** ** The imaging libraries

    What scikit-image, SciPy and NumPy compute on the entries (bilinear and
    nearest-neighbour resampling, element conversion, type promotion) is
    not part of this repository: it is a parameter. The shapes, the element
    types and the errors of their calls are modelled below. *)

Class Imaging (px : Type) : Type := {
  (* the constant 0 that np.pad writes *)
  px_zero : px;
  (* element conversion of ndarray.astype *)
  px_cast : Np.dtype -> px -> px;
  (* entry [i] of skimage.transform.resize(image, order=1) of shape [out] *)
  bilinear : Np.ndarray px -> list Z -> list Z -> px;
  (* entry [i] of scipy.ndimage.zoom(mask, order=0) of shape [out] *)
  nearest : Np.ndarray Z -> list Z -> list Z -> Z;
  (* LooseVersion(skimage.__version__) >= LooseVersion("0.14") *)
  skimage_ge_0_14 : bool;
  (* element type of [array * python_int] and of np.maximum(a, b) *)
  scalar_promote : Np.dtype -> Z -> Np.dtype;
  result_type : Np.dtype -> Np.dtype -> Np.dtype
}.

Section Libraries.
Import Np.
Context {px : Type} `{Imaging px}.

(** [skimage.transform.resize(image, output_shape, order=1,
    preserve_range=True)]: of a 2-D image, or of a 3-D one whose last axis
    is kept; the result is float64. An output without rows or columns is
    an array-shape error of the interpolation. *)
Definition skimage_transform_resize (image : ndarray px) (output_shape : Z * Z)
  : outcome (ndarray px) :=
  let '(oh, ow) := output_shape in
  match shape image with
  | _ :: _ :: rest =>
      if (1 <? length rest)%nat then Raise ValueError
      else if (oh <=? 0) || (ow <=? 0) then Raise ValueError
      else let out := oh :: ow :: rest in
           Ret (mk_ndarray out Float64 (bilinear image out))
  | _ => Raise ValueError
  end.

(** [scipy.ndimage.zoom(input, zoom, order=0)]: one factor per axis, the
    output extent of an axis is [int(round(ii * jj))]; the result keeps the
    element type of the input. As for the image, an output without rows or
    columns is taken to be an array-shape error. *)
Fixpoint zoom_shape (sh : list Z) (zoom : list Py.pynum) : outcome (list Z) :=
  match sh, zoom with
  | ii :: sh', jj :: zoom' =>
      obind (obind (Py.int_mul ii jj) Py.round) (fun d =>
      obind (zoom_shape sh' zoom') (fun ds => Ret (d :: ds)))
  | _, _ => Ret []
  end.

Definition scipy_ndimage_zoom (input : ndarray Z) (zoom : list Py.pynum)
  : outcome (ndarray Z) :=
  if negb (Nat.eqb (length zoom) (ndim input)) then Raise RuntimeError
  else obind (zoom_shape (shape input) zoom) (fun out =>
       if existsb (fun d => d <=? 0) out then Raise ValueError
       else Ret (mk_ndarray out (dtype_of input) (nearest input out))).

(** [array * k] for a Python int [k]. The instance masks hold 0 and 1, so
    the product holds 0 and [k]. *)
Definition mul_int (a : ndarray Z) (k : Z) : ndarray Z :=
  mk_ndarray (shape a) (scalar_promote (dtype_of a) k) (fun i => item a i * k).

(** [np.maximum(a, b)], entry by entry on the broadcast shape. The label
    map is a float64 array of small integers, held exactly. *)
Definition maximum (a b : ndarray Z) : outcome (ndarray Z) :=
  match broadcast_shapes (shape a) (shape b) with
  | None => Raise ValueError
  | Some sh =>
      Ret (mk_ndarray sh (result_type (dtype_of a) (dtype_of b))
             (fun i => Z.max (item a (operand_index (shape a) i))
                             (item b (operand_index (shape b) i))))
  end.

End Libraries.

(** ** dataset/dent.py *)

Definition classes : list string :=
  ["background"; "PERM"; "PRIM"; "filling"]%string.

(** (y1, x1, y2, x2) *)
Definition window_t : Type := Z * Z * Z * Z.
(** (y, x, h, w) *)
Definition crop_t : Type := Z * Z * Z * Z.

(** [if x:] on an optional int: [None] and [0] are false. *)
Definition provided (x : option Z) : bool :=
  match x with
  | Some z => negb (z =? 0)
  | None => false
  end.

(** An arithmetic operator applied to [None] raises [TypeError]. *)
Definition as_int (x : option Z) : outcome Z :=
  match x with
  | Some z => Ret z
  | None => Raise TypeError
  end.

(** One annotation of the store: its category and the binary mask that
    [coco.annToMask] draws for it. *)
Record annotation : Type := mk_annotation {
  category_id : Z;
  annToMask : Np.ndarray Z
}.

Section CocoDataset.
Import Np.
Context {px : Type} `{Imaging px}.
Local Open Scope py_scope.

(** The fields of the dataset object; [coco] and the image files are the
    annotation store and the file system. *)
Record CocoDataset : Type := mk_CocoDataset {
  ids : list Z;                               (* self.ids *)
  step : Z;                                   (* self.step *)
  test : bool;                                (* self.test *)
  transform : option ((ndarray px -> ndarray px) * (ndarray Z -> ndarray Z));
  open_image : Z -> outcome (ndarray px);     (* Image.open(...).convert('RGB') *)
  loadAnns : Z -> list annotation             (* the annotations of an image *)
}.

(** [CocoDataset.resize]: both branches of the version test resize with
    the same order, range and anti-aliasing settings. *)
Definition resize (image : ndarray px) (output_shape : Z * Z) : outcome (ndarray px) :=
  if skimage_ge_0_14 then skimage_transform_resize image output_shape
  else skimage_transform_resize image output_shape.

(** The scale factor, lines 133-144. *)
Definition scale_of (h w : Z) (min_dim max_dim : option Z)
    (min_scale : option Py.pynum) (mode : string) : outcome Py.pynum :=
  let scale := Py.PyInt 1 in
  (* Scale? *)
  obind (if provided min_dim
         then obind (as_int min_dim) (fun d =>
              obind (Py.int_truediv d (Z.min h w)) (fun q =>
              Ret (Py.max (Py.PyInt 1) (Py.PyFloat q))))
         else Ret scale) (fun scale =>
  let scale := match min_scale with
               | Some ms => if Py.truthy ms && Py.lt scale ms then ms else scale
               | None => scale
               end in
  (* Does it exceed max dim? *)
  if provided max_dim && (mode =? "square")%string
  then let image_max := Z.max h w in
       obind (as_int max_dim) (fun md =>
       obind (obind (Py.int_mul image_max scale) Py.round) (fun r =>
       if r >? md
       then obind (Py.int_truediv md image_max) (fun q => Ret (Py.PyFloat q))
       else Ret scale))
  else Ret scale).

(** The two pads of an axis of extent [d] brought to [target]. *)
Definition split_pad (target d : Z) : pair_t :=
  let before := (target - d) / 2 in
  (before, target - d - before).

(** The pads of an axis in "pad64" mode. *)
Definition pad64_axis (d : Z) : pair_t :=
  if d mod 64 >? 0
  then let max_d := d - (d mod 64) + 64 in split_pad max_d d
  else (0, 0).

(** The resampling step, lines 146-149: [round(h * scale)] rows and
    [round(w * scale)] columns, unless the scale is 1. *)
Definition rescale (image : ndarray px) (h w : Z) (scale : Py.pynum)
  : outcome (ndarray px) :=
  if Py.ne scale (Py.PyInt 1)
  then obind (obind (Py.int_mul h scale) Py.round) (fun oh =>
       obind (obind (Py.int_mul w scale) Py.round) (fun ow =>
       resize image (oh, ow)))
  else Ret image.

(** "square" mode, lines 152-161: pad with zeros to [max_dim] by [max_dim]. *)
Definition square_mode (image : ndarray px) (max_dim : option Z)
    (crop : option crop_t)
  : M (ndarray px * window_t * loc * option crop_t) :=
  (* Get new height and width *)
  '(h, w) <- lift (shape2 image) ;;
  max_dim <- lift (as_int max_dim) ;;
  let '(top_pad, bottom_pad) := split_pad max_dim h in
  let '(left_pad, right_pad) := split_pad max_dim w in
  let pads := [(top_pad, bottom_pad); (left_pad, right_pad); (0, 0)] in
  padding <- new_list pads ;;
  image <- lift (pad px_zero image pads) ;;
  let window : window_t := (top_pad, left_pad, h + top_pad, w + left_pad) in
  ret (image, window, padding, crop).

(** "pad64" mode, lines 162-182: pad both extents to multiples of 64. *)
Definition pad64_mode (image : ndarray px) (min_dim : option Z)
    (crop : option crop_t)
  : M (ndarray px * window_t * loc * option crop_t) :=
  '(h, w) <- lift (shape2 image) ;;
  (* Both sides must be divisible by 64 *)
  min_dim <- lift (as_int min_dim) ;;
  if negb (min_dim mod 64 =? 0) then raise AssertionError
  else
    let '(top_pad, bottom_pad) := pad64_axis h in
    let '(left_pad, right_pad) := pad64_axis w in
    let pads := [(top_pad, bottom_pad); (left_pad, right_pad); (0, 0)] in
    padding <- new_list pads ;;
    image <- lift (pad px_zero image pads) ;;
    let window : window_t := (top_pad, left_pad, h + top_pad, w + left_pad) in
    ret (image, window, padding, crop).

(** "crop" mode, lines 183-190: a random [min_dim] by [min_dim] crop. *)
Definition crop_mode (image : ndarray px) (min_dim : option Z) (padding : loc)
  : M (ndarray px * window_t * loc * option crop_t) :=
  (* Pick a random crop *)
  '(h, w) <- lift (shape2 image) ;;
  min_dim <- lift (as_int min_dim) ;;
  y <- randint 0 (h - min_dim) ;;
  x <- randint 0 (w - min_dim) ;;
  let crop : option crop_t := Some (y, x, min_dim, min_dim) in
  image <- lift (slice2 image y (y + min_dim) x (x + min_dim)) ;;
  let window : window_t := (0, 0, min_dim, min_dim) in
  ret (image, window, padding, crop).

(** Need padding or cropping? Lines 151-192. *)
Definition pad_or_crop (image : ndarray px) (min_dim max_dim : option Z)
    (mode : string) (padding : loc) (crop : option crop_t)
  : M (ndarray px * window_t * loc * option crop_t) :=
  if (mode =? "square")%string then square_mode image max_dim crop
  else if (mode =? "pad64")%string then pad64_mode image min_dim crop
  else if (mode =? "crop")%string then crop_mode image min_dim padding
  else raise (ModeNotSupported mode).

Definition resize_image (image : ndarray px) (min_dim max_dim : option Z)
    (min_scale : option Py.pynum) (mode : string)
  : M (ndarray px * window_t * Py.pynum * loc * option crop_t) :=
  (* Keep track of image dtype and return results in the same dtype *)
  let image_dtype := dtype_of image in
  (* Default window (y1, x1, y2, x2) and default scale == 1. *)
  '(h, w) <- lift (shape2 image) ;;
  let window : window_t := (0, 0, h, w) in
  let scale := Py.PyInt 1 in
  padding <- new_list [(0, 0); (0, 0); (0, 0)] ;;
  let crop : option crop_t := None in
  if (mode =? "none")%string then ret (image, window, scale, padding, crop)
  else
    scale <- lift (scale_of h w min_dim max_dim min_scale mode) ;;
    (* Resize image using bilinear interpolation *)
    image <- lift (rescale image h w scale) ;;
    '(image, window, padding, crop) <-
      pad_or_crop image min_dim max_dim mode padding crop ;;
    ret (astype px_cast image image_dtype, window, scale, padding, crop).

Definition resize_mask (mask : ndarray Z) (scale : Py.pynum) (padding : loc)
    (crop : option crop_t) : M (ndarray Z) :=
  mask <- lift (scipy_ndimage_zoom mask [scale; scale]) ;;
  match crop with
  | Some (y, x, h, w) => lift (slice2 mask y (y + h) x (x + w))
  | None =>
      _ <- list_pop padding 2 ;;
      pads <- read_list padding ;;
      lift (pad 0 mask pads)
  end.

(** The label map of [__getitem__], lines 70-75. *)
Definition label_value (self : CocoDataset) (ann : annotation) : Z :=
  if test self then category_id ann else step self + 1.

Fixpoint label_loop (self : CocoDataset) (mask : ndarray Z) (anns : list annotation)
  : outcome (ndarray Z) :=
  match anns with
  | [] => Ret mask
  | ann :: anns' =>
      obind (maximum mask (mul_int (annToMask ann) (label_value self ann)))
            (fun mask => label_loop self mask anns')
  end.

Definition label_map (self : CocoDataset) (w h : Z) (anns : list annotation)
  : outcome (ndarray Z) :=
  label_loop self (zeros [w; h]) anns.

(** [self.ids[index]] *)
Definition ids_at (self : CocoDataset) (index : Z) : outcome Z :=
  let n := Z.of_nat (length (ids self)) in
  let i := if index <? 0 then index + n else index in
  if (i <? 0) || (n <=? i) then Raise IndexError
  else match ids self !! Z.to_nat i with
       | Some x => Ret x
       | None => Raise IndexError
       end.

Definition getitem (self : CocoDataset) (index : Z) : M (ndarray px * ndarray Z) :=
  img_id <- lift (ids_at self index) ;;
  image <- lift (open_image self img_id) ;;
  '(w, h) <- lift (match shape image with
                   | w :: h :: _ => Ret (w, h)   (* image.shape[0], image.shape[1] *)
                   | _ => Raise IndexError
                   end) ;;
  '(image, window, scale, padding, crop) <-
    resize_image image (Some 1024) (Some 1024) (Some (Py.PyInt 0)) "square" ;;
  image <- lift (transpose_201 image) ;;
  (* Next we need to create the mask. *)
  let anns := loadAnns self img_id in
  mask <- lift (label_map self w h anns) ;;
  mask <- resize_mask mask scale padding crop ;;
  (* If augmentation is not None the image and the mask will be augmented *)
  match transform self with
  | Some (on_image, on_mask) => ret (on_image image, on_mask mask)
  | None => ret (image, mask)
  end.

Definition len (self : CocoDataset) : nat := length (ids self).

End CocoDataset.

(** * The vocabulary of the properties *)

Section Vocabulary.
Import Np.
Context {px : Type} `{Imaging px}.

(** The state in which the mode-specific step runs: the default padding
    list has been created. *)
Definition entered (s : world) : world := push_list [(0, 0); (0, 0); (0, 0)] s.

(** The scale as the specification words it: [max(1, min_dim / min(h, w))],
    raised to [min_scale] when that is given and larger, and in "square"
    mode with [max_dim] given replaced by [max_dim / max(h, w)] when the
    rounded longest side would exceed [max_dim]. *)
Definition claimed_scale (h w min_dim : Z) (min_scale : option Py.pynum)
    (max_dim : option Z) (mode : string) : outcome Py.pynum :=
  obind (Py.int_truediv min_dim (Z.min h w)) (fun q =>
  let s := Py.max (Py.PyInt 1) (Py.PyFloat q) in
  let s := match min_scale with
           | Some ms => if Py.lt s ms then ms else s
           | None => s
           end in
  match max_dim with
  | Some md =>
      if (mode =? "square")%string
      then obind (obind (Py.int_mul (Z.max h w) s) Py.round) (fun r =>
           if r >? md
           then obind (Py.int_truediv md (Z.max h w)) (fun q => Ret (Py.PyFloat q))
           else Ret s)
      else Ret s
  | None => Ret s
  end).

(** The smallest multiple of 64 that is at least [d], as the specification
    words the target of "pad64" mode. *)
Definition next_multiple_64 (d : Z) : Z := 64 * ((d + 63) / 64).

Definition least_multiple_64 (d m : Z) : Prop :=
  (64 | m) /\ d <= m /\ forall k, (64 | k) -> d <= k -> m <= k.

(** Does the instance mask of [ann] cover the pixel [i]? *)
Definition covers (ann : annotation) (i : list Z) : bool :=
  item (annToMask ann) i =? 1.

(** An instance mask of the image: [w] by [h] entries, each 0 or 1. *)
Definition instance_mask (w h : Z) (ann : annotation) : Prop :=
  shape (annToMask ann) = [w; h]
  /\ forall i, item (annToMask ann) i = 0 \/ item (annToMask ann) i = 1.

(** A label that an unsigned byte, the element type of the instance masks
    that [annToMask] draws, can hold: a class or stage number. *)
Definition byte_label (l : Z) : Prop := 0 <= l <= 255.

(** One pixel of the loop: the running maximum. *)
Definition pixel_loop (self : @CocoDataset px) (i : list Z) (v : Z)
    (anns : list annotation) : Z :=
  fold_left (fun v ann => Z.max v (item (annToMask ann) i * label_value self ann))
            anns v.



(** The condition under which the specification has [resize_image] raise:
    the mode is none of the four, or it is "pad64" and [min_dim] is not a
    multiple of 64. *)
Definition claimed_to_raise (mode : string) (min_dim : option Z) : bool :=
  negb ((mode =? "none") || (mode =? "square") || (mode =? "pad64")
        || (mode =? "crop"))%string
  || ((mode =? "pad64")%string
      && negb (match min_dim with Some d => d mod 64 =? 0 | None => false end)).

End Vocabulary.

(** ** Concrete data

    A stand-in for the imaging libraries (every resampled entry is 0), a
    random source that always holds 7, and small images and masks. *)

#[local] Instance demo_library : Imaging Z := {|
  px_zero := 0;
  px_cast := fun _ v => v;
  bilinear := fun _ _ _ => 0;
  nearest := fun _ _ _ => 0;
  skimage_ge_0_14 := true;
  scalar_promote := fun d _ => d;
  result_type := fun a _ => a
|}.

Definition demo_world : world := mk_world [] (fun _ => 7%N) 0.

Definition demo_image (h w : Z) : Np.ndarray Z :=
  Np.mk_ndarray [h; w; 3] Np.UInt8 (fun _ => 1).

Definition demo_mask (h w : Z) : Np.ndarray Z :=
  Np.mk_ndarray [h; w] Np.Float64 (fun _ => 1).

(** An instance mask of a 1 by 4 image covering the columns [lo] to [hi]. *)
Definition column_mask (lo hi : Z) : Np.ndarray Z :=
  Np.mk_ndarray [1; 4] Np.UInt8
    (fun i => match i with
              | [_; c] => if (lo <=? c) && (c <=? hi) then 1 else 0
              | _ => 0
              end).

Definition demo_anns : list annotation :=
  [mk_annotation 2 (column_mask 0 1); mk_annotation 3 (column_mask 1 2)].

Definition demo_dataset : @CocoDataset Z :=
  mk_CocoDataset [1] 0 true None (fun _ => Ret (demo_image 1 4))
                 (fun _ => demo_anns).

(** The same store read in training mode, at stage 4. *)
Definition demo_training : @CocoDataset Z :=
  mk_CocoDataset [1] 4 false None (fun _ => Ret (demo_image 1 4))
                 (fun _ => demo_anns).


(** ** Further vocabulary *)

Section Footprint.
Import Np.

(** Is the pixel (r, c) inside the window (y1, x1, y2, x2)? *)
Definition in_window (window : window_t) (r c : Z) : bool :=
  let '(y1, x1, y2, x2) := window in
  (y1 <=? r) && (r <? y2) && (x1 <=? c) && (c <? x2).

(** What a call may have done to the state: created at most [n] lists
    after the existing ones, which it left alone, and drawn at most [k]
    numbers. *)
Definition extends (n k : nat) (s s1 : world) : Prop :=
  (exists new, lists s1 = lists s ++ new /\ (length new <= n)%nat)
  /\ random_raw s1 = random_raw s
  /\ (random_pos s <= random_pos s1 <= random_pos s + k)%nat.

(** Two extents that NumPy cannot broadcast: different and neither is 1. *)
Definition clash (d e : Z) : Prop := d <> e /\ d <> 1 /\ e <> 1.

End Footprint.

(** * Properties *)

(** ** Integers that binary64 holds exactly

    [float(h)] and [float(h) * 1.0] are exact for an extent below 2^53:
    zooming a mask by the float [1.0] keeps its extents. *)

Section Binary64.

Lemma digits2_pos_size p : digits2_pos p = Pos.size p.
Proof. induction p; simpl; congruence. Qed.

Lemma digits2_bound p : Zpos p < 2 ^ 53 -> Zpos (digits2_pos p) <= 53.
Proof.
  intros Hp. rewrite digits2_pos_size.
  destruct (Z_le_gt_dec (Zpos (Pos.size p)) 53) as [|Hgt]; [assumption|exfalso].
  pose proof (Pos.size_le p) as Hle.
  apply Pos2Z.pos_le_pos in Hle. rewrite Pos2Z.inj_pow in Hle.
  assert (Hpow : 2 ^ 54 <= 2 ^ Zpos (Pos.size p)) by (apply Z.pow_le_mono_r; lia).
  change (Z.pos 2) with 2 in Hle.
  set (t := 2 ^ Z.pos (Pos.size p)) in *.
  assert (2 ^ 54 = 2 * 2 ^ 53) by reflexivity. lia.
Qed.

Lemma iter_xO_digits p n :
  digits2_pos (Pos.iter xO p n) = (digits2_pos p + n)%positive.
Proof.
  induction n using Pos.peano_ind.
  - simpl. lia.
  - rewrite Pos.iter_succ. simpl. rewrite IHn. lia.
Qed.

Lemma iter_xO_value p n : Zpos (Pos.iter xO p n) = Zpos p * 2 ^ Zpos n.
Proof.
  induction n using Pos.peano_ind.
  - simpl. lia.
  - rewrite Pos.iter_succ, Pos2Z.inj_xO, IHn, Pos2Z.inj_succ, Z.pow_succ_r by lia. lia.
Qed.

Lemma round_aux_canonical s m e :
  digits2_pos m = 53%positive -> -1074 <= e <= 971 ->
  binary_round_aux prec emax s (Zpos m) e loc_Exact = S754_finite s m e.
Proof.
  intros Hd He.
  unfold binary_round_aux, shr_fexp, Zdigits2. rewrite Hd.
  assert (Hf : fexp prec emax (53 + e) - e = 0).
  { unfold fexp, emin, prec, emax. lia. }
  rewrite Hf. cbn [shr shr_record_of_loc shr_m loc_of_shr_record round_nearest_even].
  unfold Zdigits2. rewrite Hd, Hf.
  cbn [shr shr_record_of_loc shr_m].
  replace (e <=? emax - prec) with true; [reflexivity|].
  symmetry. apply Z.leb_le. unfold emax, prec. lia.
Qed.

Lemma normalize_small p :
  Zpos p < 2 ^ 53 ->
  exists m e,
    binary_normalize prec emax (Zpos p) 0 false = S754_finite false m e
    /\ -52 <= e <= 0
    /\ Zpos m = Zpos p * 2 ^ (- e)
    /\ digits2_pos m = 53%positive.
Proof.
  intros Hp. pose proof (digits2_bound p Hp) as Hd.
  unfold binary_normalize, binary_round.
  set (d := Zpos (digits2_pos p)) in *.
  assert (Hf : fexp prec emax (d + 0) = d - 53).
  { unfold fexp, emin, prec, emax. subst d. lia. }
  rewrite Hf. unfold shl_align.
  destruct (d - 53 - 0) as [|k|k] eqn:Hk.
  - exists p, 0. assert (digits2_pos p = 53%positive) by (subst d; lia).
    split; [apply round_aux_canonical; [assumption|lia]|].
    split; [lia|]. split; [simpl; lia|assumption].
  - subst d. lia.
  - exists (Pos.iter xO p k), (d - 53).
    assert (Hdk : digits2_pos (Pos.iter xO p k) = 53%positive).
    { rewrite iter_xO_digits. subst d. lia. }
    split; [apply round_aux_canonical; [assumption|subst d; lia]|].
    split; [subst d; lia|]. split; [|assumption].
    rewrite iter_xO_value. f_equal. f_equal. lia.
Qed.

Lemma round_aux_times_one s m e :
  digits2_pos m = 53%positive -> -1074 <= e <= 971 ->
  binary_round_aux prec emax s (Zpos (m * 4503599627370496)) (e + -52) loc_Exact
  = S754_finite s m e.
Proof.
  intros Hd He.
  rewrite Pos.mul_comm.
  unfold binary_round_aux, shr_fexp.
  cbv [Pos.mul]. cbn [Zdigits2 digits2_pos]. rewrite Hd.
  match goal with |- context [fexp prec emax ?x - ?y] =>
    replace (fexp prec emax x - y) with 52 by (unfold fexp, emin, prec, emax; lia) end.
  cbn [shr shr_record_of_loc SpecFloat.iter_pos shr_1 orb shr_m loc_of_shr_record round_nearest_even].
  unfold Zdigits2. rewrite Hd.
  match goal with |- context [fexp prec emax ?x - ?y] =>
    replace (fexp prec emax x - y) with 0 by (unfold fexp, emin, prec, emax; lia) end.
  cbn [shr shr_m shr_record_of_loc].
  replace (e + -52 + 52 <=? emax - prec) with true
    by (symmetry; apply Z.leb_le; unfold emax, prec; lia).
  f_equal. lia.
Qed.

Lemma valid_canonical s m e :
  digits2_pos m = 53%positive -> -1074 <= e <= 971 ->
  valid_binary (S754_finite s m e) = true.
Proof.
  intros Hd He. unfold SpecFloat.valid_binary, bounded, canonical_mantissa.
  rewrite Hd.
  replace (fexp prec emax (53 + e)) with e by (unfold fexp, emin, prec, emax; lia).
  rewrite Z.eqb_refl. apply Z.leb_le. unfold emax, prec. lia.
Qed.

Lemma round_half_even_exact a k : 0 < k -> Py.round_half_even (a * 2 ^ k) (2 ^ k) = a.
Proof.
  intros Hk. unfold Py.round_half_even.
  assert (Hpos : 0 < 2 ^ k) by (apply Z.pow_pos_nonneg; lia).
  rewrite Z.mod_mul, Z.div_mul by lia. cbv zeta.
  change (2 * 0) with 0.
  destruct (Z.compare_spec 0 (2 ^ k)); [lia | reflexivity | lia].
Qed.

Lemma float_of_int_times_one (h : Z) :
  0 < h < 2 ^ 53 ->
  obind (Py.int_mul h (Py.PyFloat 1)) Py.round = Ret h.
Proof.
  intros [Hpos Hlt]. destruct h as [|p|p]; try lia.
  destruct (normalize_small p Hlt) as (m & e & Hn & He & Hm & Hd).
  unfold Py.int_mul, Py.float_of_int. rewrite Hn. cbn [obind Py.round].
  unfold Py.round_float. rewrite mul_spec.
  rewrite Prim2SF_SF2Prim by (apply valid_canonical; [assumption|lia]).
  change (Prim2SF 1) with (S754_finite false 4503599627370496 (-52)).
  unfold SF64mul, SFmul. cbn [xorb].
  rewrite round_aux_times_one by (try assumption; lia).
  destruct (0 <=? e) eqn:He0.
  - apply Z.leb_le in He0. assert (e = 0) by lia. subst e.
    cbn in Hm. f_equal. cbn. lia.
  - apply Z.leb_gt in He0. rewrite Hm.
    rewrite round_half_even_exact by lia. reflexivity.
Qed.

Lemma float_eq_one (f : float) :
  Py.compare_int_float 1 f = Some Eq -> f = 1%float.
Proof.
  unfold Py.compare_int_float. intros Hc.
  pose proof (Prim2SF_valid f) as Hv.
  apply Prim2SF_inj.
  change (Prim2SF 1) with (S754_finite false 4503599627370496 (-52)).
  destruct (Prim2SF f) as [s|s| |s m e]; try discriminate.
  - destruct s; discriminate.
  - destruct (0 <=? e) eqn:He0; apply (inj Some) in Hc.
    + apply Z.leb_le in He0. apply Z.compare_eq in Hc.
      assert (0 < 2 ^ e) by (apply Z.pow_pos_nonneg; lia).
      destruct s; [lia|].
      assert (Hp : Zpos m = 1 /\ 2 ^ e = 1) by nia.
      destruct Hp as [Hm1 He1]. injection Hm1 as ->.
      cbn in Hv. unfold bounded, canonical_mantissa in Hv. cbn in Hv.
      apply andb_prop in Hv as [Hv _]. apply Z.eqb_eq in Hv.
      unfold fexp, emin, prec, emax in Hv. lia.
    + apply Z.leb_gt in He0. apply Z.compare_eq in Hc.
      assert (0 < 2 ^ (- e)) by (apply Z.pow_pos_nonneg; lia).
      destruct s; [lia|].
      cbn in Hv. unfold bounded, canonical_mantissa in Hv.
      apply andb_prop in Hv as [Hv _]. apply Z.eqb_eq in Hv.
      rewrite digits2_pos_size in Hv.
      assert (Hsz : Zpos (Pos.size m) = - e + 1).
      { change (Zpos (Pos.size m)) with (Z.log2 (Zpos m~0)).
        rewrite Pos2Z.inj_xO, <- Hc, Z.mul_1_l, <- Z.pow_succ_r by lia.
        rewrite Z.log2_pow2 by lia. lia. }
      rewrite Hsz in Hv. unfold fexp, emin, prec, emax in Hv.
      assert (e = -52) by lia. subst e.
      f_equal. cbn in Hc. lia.
Qed.

(** Multiplying an extent by a scale that Python finds equal to 1 and
    rounding gives the extent back. *)
Lemma round_times_unit_scale (h : Z) (scale : Py.pynum) :
  Py.ne scale (Py.PyInt 1) = false -> 0 < h < 2 ^ 53 ->
  obind (Py.int_mul h scale) Py.round = Ret h.
Proof.
  unfold Py.ne, Py.eq. intros Hne Hh.
  destruct scale as [z|f]; cbn in Hne.
  - destruct (z ?= 1) eqn:Hz; try discriminate.
    apply Z.compare_eq in Hz. subst z. cbn. f_equal. lia.
  - destruct (Py.compare_int_float 1 f) as [[| |]|] eqn:Hc; try discriminate.
    rewrite (float_eq_one f Hc). apply float_of_int_times_one. exact Hh.
Qed.

End Binary64.

(** ** The steps of [resize_image], as equations *)

Section Running.
Import Np.
Context {px : Type} `{Imaging px}.

Lemma mode_cases (mode : string) :
  mode = "none"%string \/ mode = "square"%string \/ mode = "pad64"%string
  \/ mode = "crop"%string
  \/ ((mode =? "none") = false /\ (mode =? "square") = false
      /\ (mode =? "pad64") = false /\ (mode =? "crop") = false)%string.
Proof.
  destruct (String.eqb_spec mode "none"); [auto|].
  destruct (String.eqb_spec mode "square"); [auto|].
  destruct (String.eqb_spec mode "pad64"); [auto|].
  destruct (String.eqb_spec mode "crop"); [auto|].
  do 4 right. auto.
Qed.

Lemma resize_image_unfold (image : ndarray px) (h w : Z) (rest : list Z)
    (min_dim max_dim : option Z) (min_scale : option Py.pynum) (mode : string)
    (s : world) :
  shape image = h :: w :: rest ->
  (mode =? "none")%string = false ->
  resize_image image min_dim max_dim min_scale mode s =
  match scale_of h w min_dim max_dim min_scale mode with
  | Raise e => (entered s, Raise e)
  | Ret scale =>
      match rescale image h w scale with
      | Raise e => (entered s, Raise e)
      | Ret resized =>
          match pad_or_crop resized min_dim max_dim mode (length (lists s)) None
                            (entered s) with
          | (s1, Ret (final, window, padding, crop)) =>
              (s1, Ret (astype px_cast final (dtype_of image), window, scale,
                        padding, crop))
          | (s1, Raise e) => (s1, Raise e)
          end
      end
  end.
Proof.
  intros Hsh Hmode. unfold resize_image, bind, lift, shape2, new_list, entered.
  rewrite Hsh, Hmode.
  destruct (scale_of h w min_dim max_dim min_scale mode) as [scale|e]; [|reflexivity].
  destruct (rescale image h w scale) as [resized|e]; [|reflexivity].
  destruct (pad_or_crop resized min_dim max_dim mode (length (lists s)) None _)
    as [s1 [[[[final window] padding] crop]|e]]; reflexivity.
Qed.

Lemma square_mode_unfold (image : ndarray px) (h w : Z) (rest : list Z)
    (max_dim : Z) (crop : option crop_t) (s : world) :
  shape image = h :: w :: rest ->
  let pads := [split_pad max_dim h; split_pad max_dim w; (0, 0)] in
  square_mode image (Some max_dim) crop s =
  (push_list pads s,
   obind (pad px_zero image pads) (fun padded =>
     Ret (padded,
          (fst (split_pad max_dim h), fst (split_pad max_dim w),
           h + fst (split_pad max_dim h), w + fst (split_pad max_dim w)),
          length (lists s), crop))).
Proof.
  intros Hsh pads. unfold square_mode, bind, lift, shape2, new_list, as_int.
  rewrite Hsh. subst pads. unfold split_pad. cbn [fst].
  match goal with |- context [pad px_zero image ?p] => destruct (pad px_zero image p) end;
    reflexivity.
Qed.

Lemma pad64_mode_unfold (image : ndarray px) (h w : Z) (rest : list Z)
    (min_dim : Z) (crop : option crop_t) (s : world) :
  shape image = h :: w :: rest ->
  min_dim mod 64 = 0 ->
  let pads := [pad64_axis h; pad64_axis w; (0, 0)] in
  pad64_mode image (Some min_dim) crop s =
  (push_list pads s,
   obind (pad px_zero image pads) (fun padded =>
     Ret (padded,
          (fst (pad64_axis h), fst (pad64_axis w),
           h + fst (pad64_axis h), w + fst (pad64_axis w)),
          length (lists s), crop))).
Proof.
  intros Hsh Hmod pads. unfold pad64_mode, bind, lift, shape2, new_list, as_int.
  rewrite Hsh, Hmod. cbn [Z.eqb negb]. subst pads.
  destruct (pad64_axis h) as [top_pad bottom_pad].
  destruct (pad64_axis w) as [left_pad right_pad]. cbn [fst].
  match goal with |- context [pad px_zero image ?p] => destruct (pad px_zero image p) end;
    reflexivity.
Qed.

Lemma crop_mode_unfold (image : ndarray px) (h w : Z) (rest : list Z)
    (min_dim : Z) (padding : loc) (s : world) :
  shape image = h :: w :: rest ->
  min_dim <= h -> min_dim <= w ->
  let y := randbelow (h - min_dim + 1) s in
  let x := randbelow (w - min_dim + 1) (advance s) in
  crop_mode image (Some min_dim) padding s =
  (advance (advance s),
   obind (slice2 image y (y + min_dim) x (x + min_dim)) (fun cropped =>
     Ret (cropped, (0, 0, min_dim, min_dim), padding,
          Some (y, x, min_dim, min_dim)))).
Proof.
  intros Hsh Hh Hw y x. unfold crop_mode, bind, lift, shape2, randint, as_int.
  rewrite Hsh.
  replace (h - min_dim <? 0) with false by (symmetry; apply Z.ltb_ge; lia).
  replace (w - min_dim <? 0) with false by (symmetry; apply Z.ltb_ge; lia).
  replace (h - min_dim - 0 + 1) with (h - min_dim + 1) by lia.
  replace (w - min_dim - 0 + 1) with (w - min_dim + 1) by lia.
  rewrite !Z.add_0_l. fold y. fold x.
  destruct (slice2 image y (y + min_dim) x (x + min_dim)); reflexivity.
Qed.

End Running.
(** ** Image and mask stay aligned *)

Section Alignment.
Import Np.
Context {px : Type} `{Imaging px}.

Lemma resize_shape (image : ndarray px) (h w oh ow : Z) (rest : list Z) (image' : ndarray px) :
  shape image = h :: w :: rest ->
  resize image (oh, ow) = Ret image' ->
  shape image' = oh :: ow :: rest /\ 0 < oh /\ 0 < ow /\ dtype_of image' = Float64.
Proof.
  intros Hsh Hr.
  assert (Hs : skimage_transform_resize image (oh, ow) = Ret image').
  { unfold resize in Hr. destruct skimage_ge_0_14; exact Hr. }
  unfold skimage_transform_resize in Hs. rewrite Hsh in Hs.
  destruct (1 <? length rest)%nat; [discriminate|].
  destruct ((oh <=? 0) || (ow <=? 0)) eqn:Hpos; [discriminate|].
  apply orb_false_elim in Hpos as [Hoh How].
  apply Z.leb_gt in Hoh, How.
  injection Hs as <-. cbn. auto.
Qed.

(** The mask is zoomed to the extents the image was resampled to. *)
Lemma zoom_follows_rescale (image image' : ndarray px) (mask : ndarray Z)
    (h w : Z) (rest : list Z) (scale : Py.pynum) :
  shape image = h :: w :: rest ->
  shape mask = [h; w] ->
  0 < h < 2 ^ 53 -> 0 < w < 2 ^ 53 ->
  rescale image h w scale = Ret image' ->
  exists h' w',
    shape image' = h' :: w' :: rest /\ 0 < h' /\ 0 < w'
    /\ scipy_ndimage_zoom mask [scale; scale]
       = Ret (mk_ndarray [h'; w'] (dtype_of mask) (nearest mask [h'; w'])).
Proof.
  intros Hsh Hm Hh Hw Hr. unfold rescale in Hr.
  unfold scipy_ndimage_zoom, ndim. rewrite Hm. cbn [length Nat.eqb negb zoom_shape].
  destruct (Py.ne scale (Py.PyInt 1)) eqn:Hne.
  - destruct (obind (Py.int_mul h scale) Py.round) as [oh|] eqn:Hoh; [|discriminate].
    destruct (obind (Py.int_mul w scale) Py.round) as [ow|] eqn:How; [|discriminate].
    cbn [obind] in Hr |- *.
    destruct (resize_shape _ _ _ _ _ _ _ Hsh Hr) as (Hs' & Hoh' & How' & _).
    exists oh, ow. repeat split; try assumption.
    cbn [existsb]. 
    replace (oh <=? 0) with false by (symmetry; apply Z.leb_gt; lia).
    replace (ow <=? 0) with false by (symmetry; apply Z.leb_gt; lia).
    reflexivity.
  - injection Hr as <-.
    rewrite (round_times_unit_scale h scale Hne Hh).
    rewrite (round_times_unit_scale w scale Hne Hw).
    exists h, w. repeat split; try assumption; try lia.
    cbn [obind existsb].
    replace (h <=? 0) with false by (symmetry; apply Z.leb_gt; lia).
    replace (w <=? 0) with false by (symmetry; apply Z.leb_gt; lia).
    reflexivity.
Qed.

(** What [resize_mask] does once the zoom has succeeded. *)
Lemma resize_mask_pads (mask zoomed : ndarray Z) (scale : Py.pynum) (padding : loc)
    (s : world) (a b c : pair_t) (more : list pair_t) :
  scipy_ndimage_zoom mask [scale; scale] = Ret zoomed ->
  lists s !! padding = Some (a :: b :: c :: more) ->
  resize_mask mask scale padding None s
  = (mk_world (<[padding := a :: b :: more]> (lists s)) (random_raw s) (random_pos s),
     pad 0 zoomed (a :: b :: more)).
Proof.
  intros Hz Hl. unfold resize_mask, bind, lift, list_pop, read_list.
  rewrite Hz, Hl. cbn.
  rewrite list_lookup_insert_eq by (eapply lookup_lt_Some; eassumption).
  destruct (pad 0 zoomed (a :: b :: more)); reflexivity.
Qed.

Lemma resize_mask_crops (mask zoomed : ndarray Z) (scale : Py.pynum) (padding : loc)
    (s : world) (y x h w : Z) :
  scipy_ndimage_zoom mask [scale; scale] = Ret zoomed ->
  resize_mask mask scale padding (Some (y, x, h, w)) s
  = (s, slice2 zoomed y (y + h) x (x + w)).
Proof.
  intros Hz. unfold resize_mask, bind, lift. rewrite Hz. reflexivity.
Qed.

(** [np.pad] of a 3-D image and of a 2-D mask by the same leading pairs. *)
Lemma pad_image_then_mask (image image' : ndarray px) (zoomed : ndarray Z)
    (h w : Z) (rest : list Z) (a b : pair_t) :
  shape image = h :: w :: rest ->
  shape zoomed = [h; w] ->
  pad px_zero image [a; b; (0, 0)] = Ret image' ->
  exists mask',
    pad 0 zoomed [a; b] = Ret mask' /\ shape mask' = take 2 (shape image').
Proof.
  intros Hsh Hz Hp. unfold pad, ndim in *. rewrite Hsh in Hp. rewrite Hz.
  cbn [length pad_pairs Nat.eqb].
  destruct rest as [|c [|c' rest]]; cbn in Hp; try discriminate.
  cbn [existsb]. destruct (pair_negative a); [discriminate|].
  destruct (pair_negative b); [discriminate|].
  cbn in Hp. injection Hp as <-. eexists. split; reflexivity.
Qed.

Lemma slice_image_then_mask (image image' : ndarray px) (zoomed : ndarray Z)
    (h w : Z) (rest : list Z) (y1 y2 x1 x2 : Z) :
  shape image = h :: w :: rest ->
  shape zoomed = [h; w] ->
  slice2 image y1 y2 x1 x2 = Ret image' ->
  exists mask',
    slice2 zoomed y1 y2 x1 x2 = Ret mask' /\ shape mask' = take 2 (shape image').
Proof.
  intros Hsh Hz Hs. unfold slice2 in *. rewrite Hsh in Hs. rewrite Hz.
  injection Hs as <-. eexists. split; reflexivity.
Qed.

(** C1. Whenever [resize_image] returns, for any mode and parameters,
    [resize_mask] called on a mask of the same height and width with the
    returned scale, padding and crop returns too, and the mask it returns
    has the height and width of the resized image. The extents are those
    of a non-empty array that binary64 counts exactly (below 2^53). *)
Theorem mask_shape_matches (image image' : ndarray px) (mask : ndarray Z)
    (h w : Z) (rest : list Z) (min_dim max_dim : option Z)
    (min_scale : option Py.pynum) (mode : string) (s s1 : world)
    (window : window_t) (scale : Py.pynum) (padding : loc) (crop : option crop_t) :
  shape image = h :: w :: rest ->
  shape mask = [h; w] ->
  0 < h < 2 ^ 53 -> 0 < w < 2 ^ 53 ->
  resize_image image min_dim max_dim min_scale mode s
    = (s1, Ret (image', window, scale, padding, crop)) ->
  exists s2 mask',
    resize_mask mask scale padding crop s1 = (s2, Ret mask')
    /\ shape mask' = take 2 (shape image').
Proof.
  intros Hsh Hm Hh Hw Hrun.
  destruct (String.eqb_spec mode "none") as [->|Hnone].
  - (* none *)
    unfold resize_image, bind, lift, shape2, new_list in Hrun.
    rewrite Hsh in Hrun. cbn in Hrun. injection Hrun as <- <- <- <- <- <-.
    destruct (zoom_follows_rescale image image mask h w rest (Py.PyInt 1))
      as (h' & w' & Hs' & _ & _ & Hz); try assumption; [reflexivity|].
    rewrite Hsh in Hs'. injection Hs' as <- <-.
    erewrite resize_mask_pads; [| exact Hz | apply list_lookup_middle; reflexivity].
    eexists _, _. split; [reflexivity|]. rewrite Hsh. cbn.
    f_equal; [lia | f_equal; lia].
  - apply String.eqb_neq in Hnone.
    rewrite (resize_image_unfold _ _ _ _ _ _ _ _ _ Hsh Hnone) in Hrun.
    destruct (scale_of h w min_dim max_dim min_scale mode) as [sc|]; [|discriminate].
    destruct (rescale image h w sc) as [resized|] eqn:Hres; [|discriminate].
    destruct (zoom_follows_rescale _ _ mask _ _ _ _ Hsh Hm Hh Hw Hres)
      as (h' & w' & Hs' & Hh' & Hw' & Hz).
    set (zoomed := mk_ndarray [h'; w'] _ _) in Hz.
    assert (Hzs : shape zoomed = [h'; w']) by reflexivity.
    unfold pad_or_crop in Hrun.
    destruct (mode_cases mode) as [->|[->|[->|[->|(_ & Hsq & Hp & Hc)]]]];
      try discriminate.
    + (* square *)
      cbn [String.eqb Ascii.eqb Bool.eqb] in Hrun.
      destruct max_dim as [md|].
      2:{ unfold square_mode, bind, lift, shape2 in Hrun. rewrite Hs' in Hrun.
          discriminate. }
      rewrite (square_mode_unfold _ _ _ _ _ _ _ Hs') in Hrun.
      destruct (pad px_zero resized _) as [padded|] eqn:Hpad; [|discriminate].
      cbn [obind] in Hrun. injection Hrun as <- <- <- <- <- <-.
      destruct (pad_image_then_mask resized padded zoomed h' w' rest _ _ Hs' Hzs Hpad)
        as (mask' & Hpm & Hshape).
      erewrite resize_mask_pads;
        [| exact Hz | apply list_lookup_middle; unfold entered, push_list; cbn;
                      rewrite length_app; cbn; lia].
      eexists _, mask'. split; [rewrite Hpm; reflexivity|exact Hshape].
    + (* pad64 *)
      cbn [String.eqb Ascii.eqb Bool.eqb] in Hrun.
      unfold pad64_mode, bind, lift, shape2, new_list in Hrun. rewrite Hs' in Hrun.
      destruct (as_int min_dim) as [d|]; [|discriminate].
      destruct (negb (d mod 64 =? 0)); [discriminate|].
      destruct (pad64_axis h') as [top_pad bottom_pad].
      destruct (pad64_axis w') as [left_pad right_pad].
      destruct (pad px_zero resized _) as [padded|] eqn:Hpad; [|discriminate].
      cbn in Hrun. injection Hrun as <- <- <- <- <- <-.
      destruct (pad_image_then_mask resized padded zoomed h' w' rest _ _ Hs' Hzs Hpad)
        as (mask' & Hpm & Hshape).
      erewrite resize_mask_pads;
        [| exact Hz | apply list_lookup_middle; unfold entered, push_list; cbn;
                      rewrite length_app; cbn; lia].
      eexists _, mask'. split; [rewrite Hpm; reflexivity|exact Hshape].
    + (* crop *)
      cbn [String.eqb Ascii.eqb Bool.eqb] in Hrun.
      unfold crop_mode, bind, lift, shape2 in Hrun. rewrite Hs' in Hrun.
      destruct (as_int min_dim) as [d|]; [|discriminate].
      destruct (randint 0 (h' - d) (entered s)) as [sy [y|]]; [|discriminate].
      destruct (randint 0 (w' - d) sy) as [sx [x|]]; [|discriminate].
      destruct (slice2 resized y (y + d) x (x + d)) as [cropped|] eqn:Hsl;
        [|discriminate].
      cbn in Hrun. injection Hrun as <- <- <- <- <- <-.
      destruct (slice_image_then_mask resized cropped zoomed h' w' rest _ _ _ _
                  Hs' Hzs Hsl) as (mask' & Hsm & Hshape).
      rewrite (resize_mask_crops _ _ _ _ _ _ _ _ _ Hz).
      eexists _, mask'. split; [rewrite Hsm; reflexivity|exact Hshape].
    + (* any other mode raises *)
      rewrite Hsq, Hp, Hc in Hrun. discriminate.
Qed.

End Alignment.

(** ** The scale factor *)

Section Scale.
Import Np.
Context {px : Type} `{Imaging px}.

Lemma rescale_shape (image resized : ndarray px) (h w : Z) (rest : list Z)
    (scale : Py.pynum) :
  shape image = h :: w :: rest -> 0 < h -> 0 < w ->
  rescale image h w scale = Ret resized ->
  exists h' w', shape resized = h' :: w' :: rest /\ 0 < h' /\ 0 < w'.
Proof.
  intros Hsh Hh Hw Hr. unfold rescale in Hr.
  destruct (Py.ne scale (Py.PyInt 1)).
  - destruct (obind (Py.int_mul h scale) Py.round) as [oh|]; [|discriminate].
    destruct (obind (Py.int_mul w scale) Py.round) as [ow|]; [|discriminate].
    cbn [obind] in Hr.
    destruct (resize_shape _ _ _ _ _ _ _ Hsh Hr) as (Hs' & Hoh & How & _).
    eauto.
  - injection Hr as <-. eauto.
Qed.

(** A float above the int 1 is not below zero. *)
Lemma above_one_positive (q : float) :
  Py.compare_int_float 1 q = Some Lt ->
  Prim2SF q = S754_infinity false \/ exists m e, Prim2SF q = S754_finite false m e.
Proof.
  unfold Py.compare_int_float. intros Hq.
  destruct (Prim2SF q) as [sq|sq| |sq m e]; try discriminate.
  - destruct sq; [discriminate|auto].
  - right. destruct sq; [exfalso|eauto].
    destruct (0 <=? e) eqn:He; apply (inj Some) in Hq.
    + apply Z.leb_le in He.
      assert (0 < 2 ^ e) by (apply Z.pow_pos_nonneg; lia).
      apply -> Z.compare_lt_iff in Hq. nia.
    + apply -> Z.compare_lt_iff in Hq. lia.
Qed.

Lemma falsy_float_is_zero (f : float) :
  Py.compare_int_float 0 f = Some Eq -> exists sf, Prim2SF f = S754_zero sf.
Proof.
  unfold Py.compare_int_float. intros Hf.
  destruct (Prim2SF f) as [sf|sf| |sf m e]; try discriminate; eauto.
  - destruct sf; discriminate.
  - exfalso. destruct (0 <=? e) eqn:He; apply (inj Some) in Hf;
      apply Z.compare_eq in Hf.
    + apply Z.leb_le in He.
      assert (0 < 2 ^ e) by (apply Z.pow_pos_nonneg; lia).
      destruct sf; nia.
    + destruct sf; lia.
Qed.

(** A float above the int 1 is not below zero. *)
Lemma above_one_not_below_zero (q : float) (ms : Py.pynum) :
  Py.compare_int_float 1 q = Some Lt ->
  Py.truthy ms = false ->
  Py.lt (Py.PyFloat q) ms = false.
Proof.
  intros Hq Hms. unfold Py.truthy, Py.ne, Py.eq in Hms.
  apply negb_false_iff in Hms.
  apply above_one_positive in Hq.
  unfold Py.lt.
  destruct ms as [z|f]; cbn [Py.compare] in *.
  - destruct (z ?= 0) eqn:Hz; try discriminate. apply Z.compare_eq in Hz. subst z.
    unfold Py.compare_int_float.
    destruct Hq as [->|(m & e & ->)]; [reflexivity|].
    destruct (0 <=? e) eqn:He; cbn [option_map CompOpp].
    + apply Z.leb_le in He.
      assert (0 < 2 ^ e) by (apply Z.pow_pos_nonneg; lia).
      destruct (Z.compare_spec 0 (Z.pos m * 2 ^ e)); try reflexivity; nia.
    + reflexivity.
  - destruct (Py.compare_int_float 0 f) as [[| |]|] eqn:Hf; try discriminate.
    destruct (falsy_float_is_zero f Hf) as [sf Hsf].
    rewrite FloatAxioms.compare_spec, Hsf.
    destruct Hq as [->|(m & e & ->)]; reflexivity.
Qed.

(** The scale reached after the first step is at least 1: a [min_scale]
    that Python takes for false (a zero) is never above it. *)
Lemma scale_floor_not_below_zero (q : float) (ms : Py.pynum) :
  Py.truthy ms = false ->
  Py.lt (Py.max (Py.PyInt 1) (Py.PyFloat q)) ms = false.
Proof.
  intros Hms.
  assert (Hmax : Py.max (Py.PyInt 1) (Py.PyFloat q)
                 = match Py.compare_int_float 1 q with
                   | Some Lt => Py.PyFloat q
                   | _ => Py.PyInt 1
                   end).
  { unfold Py.max, Py.gt, Py.lt. cbn [Py.compare].
    destruct (Py.compare_int_float 1 q) as [[| |]|]; reflexivity. }
  rewrite Hmax.
  destruct (Py.compare_int_float 1 q) as [[| |]|] eqn:Hq;
    try (apply above_one_not_below_zero; assumption).
  all: unfold Py.truthy, Py.ne, Py.eq in Hms; apply negb_false_iff in Hms;
    unfold Py.lt; destruct ms as [z|f]; cbn [Py.compare] in *.
  all: try (destruct (z ?= 0) eqn:Hz; try discriminate;
            apply Z.compare_eq in Hz; subst z; reflexivity).
  all: destruct (Py.compare_int_float 0 f) as [[| |]|] eqn:Hf; try discriminate;
    destruct (falsy_float_is_zero f Hf) as [sf Hsf];
    unfold Py.compare_int_float; rewrite Hsf; reflexivity.
Qed.

(** With nothing to divide, the first step of the claim gives the int 1
    that the code starts from. *)
Lemma first_step_as_claimed (h w d : Z) :
  0 < h -> 0 < w ->
  (if provided (Some d)
   then obind (as_int (Some d)) (fun d =>
        obind (Py.int_truediv d (Z.min h w)) (fun q =>
        Ret (Py.max (Py.PyInt 1) (Py.PyFloat q))))
   else Ret (Py.PyInt 1))
  = obind (Py.int_truediv d (Z.min h w)) (fun q =>
      Ret (Py.max (Py.PyInt 1) (Py.PyFloat q))).
Proof.
  intros Hh Hw. unfold provided.
  destruct (Z.eqb_spec d 0) as [->|Hd]; [|reflexivity].
  cbn [negb]. unfold Py.int_truediv.
  destruct (Z.eqb_spec (Z.min h w) 0) as [Hm|Hm]; [lia|].
  destruct (Z.min h w) as [|p|p] eqn:Hmin; try lia.
  reflexivity.
Qed.

(** In "square" mode a [max_dim] of 0 leaves no room for a non-empty
    image: [np.pad] is given a negative width. *)
Lemma square_mode_no_room (image : ndarray px) (h w : Z) (rest : list Z)
    (crop : option crop_t) (s : world) :
  shape image = h :: w :: rest -> 0 < h ->
  returns (snd (square_mode image (Some 0) crop s)) = false.
Proof.
  intros Hsh Hh. rewrite (square_mode_unfold _ _ _ _ _ _ _ Hsh). cbn [snd].
  unfold pad. destruct (pad_pairs _ _) as [pw|] eqn:Hpw; [|reflexivity].
  unfold pad_pairs, ndim in Hpw. rewrite Hsh in Hpw. cbn [length] in Hpw.
  destruct (Nat.eqb 3 (S (S (length rest)))); [|discriminate].
  injection Hpw as <-. cbn [existsb].
  assert (Hneg : pair_negative (split_pad 0 h) = true).
  { unfold pair_negative, split_pad. cbn [fst snd].
    apply orb_true_iff. left. apply Z.ltb_lt.
    apply Z.div_lt_upper_bound; lia. }
  rewrite Hneg. reflexivity.
Qed.

(** C3. When [resize_image] returns in a mode other than "none" with
    [min_dim] given, the scale it returns is the one the claim describes:
    [max(1, min_dim / min(h, w))], raised to [min_scale] when given and
    larger, replaced in "square" mode by [max_dim / max(h, w)] when the
    rounded longest side would exceed [max_dim]. *)
Theorem scale_as_claimed (image image' : ndarray px) (h w d : Z) (rest : list Z)
    (max_dim : option Z) (min_scale : option Py.pynum) (mode : string)
    (s s1 : world) (window : window_t) (scale : Py.pynum) (padding : loc)
    (crop : option crop_t) :
  shape image = h :: w :: rest -> 0 < h -> 0 < w ->
  mode <> "none"%string ->
  resize_image image (Some d) max_dim min_scale mode s
    = (s1, Ret (image', window, scale, padding, crop)) ->
  claimed_scale h w d min_scale max_dim mode = Ret scale.
Proof.
  intros Hsh Hh Hw Hmode Hrun. apply String.eqb_neq in Hmode.
  rewrite (resize_image_unfold _ _ _ _ _ _ _ _ _ Hsh Hmode) in Hrun.
  destruct (scale_of h w (Some d) max_dim min_scale mode) as [sc|] eqn:Hsc;
    [|discriminate].
  destruct (rescale image h w sc) as [resized|] eqn:Hres; [|discriminate].
  destruct (pad_or_crop resized (Some d) max_dim mode (length (lists s)) None
              (entered s)) as [s' [[[[final win] pd] cr]|]] eqn:Hfin;
    [|discriminate].
  injection Hrun as <- <- <- <- <- <-.
  destruct (rescale_shape _ _ _ _ _ _ Hsh Hh Hw Hres) as (h' & w' & Hs' & Hh' & _).
  unfold scale_of in Hsc. rewrite (first_step_as_claimed h w d Hh Hw) in Hsc.
  unfold claimed_scale.
  destruct (Py.int_truediv d (Z.min h w)) as [q|]; [|discriminate].
  cbn [obind] in Hsc |- *.
  set (s0 := Py.max (Py.PyInt 1) (Py.PyFloat q)) in *.
  assert (Hms : match min_scale with
                | Some ms => if Py.truthy ms && Py.lt s0 ms then ms else s0
                | None => s0
                end
                = match min_scale with
                  | Some ms => if Py.lt s0 ms then ms else s0
                  | None => s0
                  end).
  { destruct min_scale as [ms|]; [|reflexivity].
    destruct (Py.truthy ms) eqn:Ht; [reflexivity|].
    subst s0. rewrite (scale_floor_not_below_zero q ms Ht). reflexivity. }
  rewrite Hms in Hsc. clear Hms.
  destruct max_dim as [md|]; [|exact Hsc].
  unfold provided in Hsc.
  destruct (Z.eqb_spec md 0) as [->|Hmd]; [|exact Hsc].
  cbn [negb andb] in Hsc.
  destruct (mode =? "square")%string eqn:Hsq; [exfalso|exact Hsc].
  unfold pad_or_crop in Hfin. rewrite Hsq in Hfin.
  pose proof (square_mode_no_room resized h' w' rest None (entered s) Hs' Hh') as Hno.
  rewrite Hfin in Hno. discriminate.
Qed.

End Scale.

(** ** The modes *)

Section Modes.
Import Np.
Context {px : Type} `{Imaging px}.

Lemma resize_unfold (image : ndarray px) (h w oh ow : Z) (c : Z) :
  shape image = [h; w; c] -> 0 < oh -> 0 < ow ->
  resize image (oh, ow)
  = Ret (mk_ndarray [oh; ow; c] Float64 (bilinear image [oh; ow; c])).
Proof.
  intros Hsh Hoh How.
  assert (Hs : skimage_transform_resize image (oh, ow)
               = Ret (mk_ndarray [oh; ow; c] Float64 (bilinear image [oh; ow; c]))).
  { unfold skimage_transform_resize. rewrite Hsh. cbn [length Nat.ltb Nat.leb].
    replace (oh <=? 0) with false by (symmetry; apply Z.leb_gt; lia).
    replace (ow <=? 0) with false by (symmetry; apply Z.leb_gt; lia).
    reflexivity. }
  unfold resize. destruct skimage_ge_0_14; exact Hs.
Qed.

(** C2. A 600 by 800 image resized with [min_dim=1024], [max_dim=1024],
    [min_scale=0] in "square" mode: the scale is [1024 / 800], the float
    1.28; the image returned is 1024 by 1024; the padding list holds
    [(128, 128), (0, 0), (0, 0)]; the window is [(128, 0, 896, 1024)]. *)
Theorem square_600_800 (image : ndarray px) (c : Z) (s : world) :
  shape image = [600; 800; c] ->
  exists s' image' padding,
    resize_image image (Some 1024) (Some 1024) (Some (Py.PyInt 0)) "square" s
      = (s', Ret (image', (128, 0, 896, 1024),
                  Py.PyFloat 0x1.47ae147ae147bp+0, padding, None))
    /\ Py.int_truediv 1024 800 = Ret 0x1.47ae147ae147bp+0%float
    /\ shape image' = [1024; 1024; c]
    /\ lists s' !! padding = Some [(128, 128); (0, 0); (0, 0)].
Proof.
  intros Hsh.
  rewrite (resize_image_unfold _ _ _ _ _ _ _ "square" _ Hsh eq_refl).
  replace (scale_of 600 800 (Some 1024) (Some 1024) (Some (Py.PyInt 0)) "square")
    with (Ret (Py.PyFloat 0x1.47ae147ae147bp+0)) by (vm_compute; reflexivity).
  assert (Hres : rescale image 600 800 (Py.PyFloat 0x1.47ae147ae147bp+0)
                 = Ret (mk_ndarray [768; 1024; c] Float64
                          (bilinear image [768; 1024; c]))).
  { unfold rescale.
    replace (Py.ne (Py.PyFloat 0x1.47ae147ae147bp+0) (Py.PyInt 1)) with true
      by (vm_compute; reflexivity).
    replace (obind (Py.int_mul 600 (Py.PyFloat 0x1.47ae147ae147bp+0)) Py.round)
      with (Ret 768) by (vm_compute; reflexivity).
    replace (obind (Py.int_mul 800 (Py.PyFloat 0x1.47ae147ae147bp+0)) Py.round)
      with (Ret 1024) by (vm_compute; reflexivity).
    cbn [obind]. apply (resize_unfold image 600 800); [assumption|lia|lia]. }
  rewrite Hres. unfold pad_or_crop. cbn [String.eqb Ascii.eqb Bool.eqb].
  rewrite (square_mode_unfold _ 768 1024 [c]) by reflexivity.
  eexists _, _, _. split; [reflexivity|]. split; [vm_compute; reflexivity|].
  split; [cbn; do 3 f_equal; lia|].
  apply list_lookup_middle. reflexivity.
Qed.

Lemma next_multiple_64_least (d : Z) : least_multiple_64 d (next_multiple_64 d).
Proof.
  unfold least_multiple_64, next_multiple_64. split; [|split].
  - exists ((d + 63) / 64). lia.
  - pose proof (Z.div_mod (d + 63) 64 ltac:(lia)).
    pose proof (Z.mod_pos_bound (d + 63) 64 ltac:(lia)). lia.
  - intros k [j ->] Hk.
    assert ((d + 63) / 64 < j + 1); [|lia].
    apply Z.div_lt_upper_bound; lia.
Qed.

(** The pads that the code computes for an axis are the two halves of the
    distance to the next multiple of 64. *)
Lemma pad64_axis_split (d : Z) :
  pad64_axis d = split_pad (next_multiple_64 d) d.
Proof.
  unfold pad64_axis, split_pad, next_multiple_64.
  pose proof (Z.div_mod d 64 ltac:(lia)) as Hd.
  pose proof (Z.mod_pos_bound d 64 ltac:(lia)) as Hr.
  destruct (Z.gtb_spec (d mod 64) 0) as [Hpos|Hzero].
  - assert (Hq : (d + 63) / 64 = d / 64 + 1).
    { symmetry. apply Z.div_unique with (r := d mod 64 - 1); lia. }
    rewrite Hq.
    replace (64 * (d / 64 + 1)) with (d - d mod 64 + 64) by lia. reflexivity.
  - assert (Hq : (d + 63) / 64 = d / 64).
    { symmetry. apply Z.div_unique with (r := 63); lia. }
    rewrite Hq. replace (64 * (d / 64) - d) with 0 by lia. reflexivity.
Qed.

Lemma pad64_axis_nonneg (d : Z) : pair_negative (pad64_axis d) = false.
Proof.
  rewrite pad64_axis_split.
  destruct (next_multiple_64_least d) as (_ & Hle & _).
  unfold pair_negative, split_pad. cbn [fst snd].
  set (n := next_multiple_64 d - d) in *. assert (0 <= n) by (subst n; lia).
  replace (next_multiple_64 d - d) with n by reflexivity.
  pose proof (Z.div_mod n 2 ltac:(lia)).
  pose proof (Z.mod_pos_bound n 2 ltac:(lia)).
  apply orb_false_iff. split; apply Z.ltb_ge; lia.
Qed.

Lemma scale_of_ignores_max_dim (h w : Z) (min_dim max_dim max_dim' : option Z)
    (min_scale : option Py.pynum) (mode : string) :
  (mode =? "square")%string = false ->
  scale_of h w min_dim max_dim min_scale mode
  = scale_of h w min_dim max_dim' min_scale mode.
Proof.
  intros Hm. unfold scale_of. rewrite Hm, !andb_false_r. reflexivity.
Qed.

(** C6. "pad64" mode with [min_dim] a multiple of 64: each extent of the
    scaled image is brought to the smallest multiple of 64 that is not
    below it; the pads are the floor of half the difference and the rest,
    and are 0 on an extent that is a multiple of 64 already; [max_dim]
    plays no role. *)
Theorem pad64_geometry (image resized : ndarray px) (h w c h' w' d : Z)
    (max_dim : option Z) (min_scale : option Py.pynum) (scale : Py.pynum)
    (s : world) :
  shape image = [h; w; c] ->
  d mod 64 = 0 ->
  scale_of h w (Some d) max_dim min_scale "pad64" = Ret scale ->
  rescale image h w scale = Ret resized ->
  shape resized = [h'; w'; c] ->
  exists H W top left image',
    least_multiple_64 h' H /\ least_multiple_64 w' W
    /\ top = (H - h') / 2 /\ left = (W - w') / 2
    /\ resize_image image (Some d) max_dim min_scale "pad64" s
       = (push_list [(top, H - h' - top); (left, W - w' - left); (0, 0)]
                    (entered s),
          Ret (image', (top, left, h' + top, w' + left), scale,
               S (length (lists s)), None))
    /\ shape image' = [H; W; c]
    /\ (h' mod 64 = 0 -> top = 0 /\ H - h' - top = 0)
    /\ (w' mod 64 = 0 -> left = 0 /\ W - w' - left = 0)
    /\ (forall max_dim',
          resize_image image (Some d) max_dim' min_scale "pad64" s
          = resize_image image (Some d) max_dim min_scale "pad64" s).
Proof.
  intros Hsh Hd Hsc Hres Hs'.
  exists (next_multiple_64 h'), (next_multiple_64 w').
  set (Hh := next_multiple_64 h'). set (Ww := next_multiple_64 w').
  exists ((Hh - h') / 2), ((Ww - w') / 2).
  assert (Hpad : exists image',
             pad px_zero resized [pad64_axis h'; pad64_axis w'; (0, 0)] = Ret image'
             /\ shape image' = [Hh; Ww; c]).
  { unfold pad, ndim. rewrite Hs'. cbn [length pad_pairs Nat.eqb existsb].
    rewrite !pad64_axis_nonneg. cbn [orb pair_negative fst snd Z.ltb Z.compare].
    eexists. split; [reflexivity|]. rewrite !pad64_axis_split.
    unfold split_pad. cbn. subst Hh Ww. f_equal; [lia|f_equal; [lia|f_equal; lia]]. }
  destruct Hpad as (image' & Hpad & Hshape).
  exists (astype px_cast image' (dtype_of image)).
  split; [apply next_multiple_64_least|]. split; [apply next_multiple_64_least|].
  split; [reflexivity|]. split; [reflexivity|].
  split; [|split; [exact Hshape|split; [|split]]].
  - rewrite (resize_image_unfold _ _ _ _ _ _ _ "pad64" _ Hsh eq_refl).
    rewrite Hsc, Hres. unfold pad_or_crop. cbn [String.eqb Ascii.eqb Bool.eqb].
    rewrite (pad64_mode_unfold _ _ _ _ _ _ _ Hs' Hd). rewrite Hpad. cbn [obind].
    rewrite !pad64_axis_split. unfold split_pad. cbn [fst].
    unfold entered, push_list. cbn. rewrite length_app. cbn.
    replace (length (lists s) + 1)%nat with (S (length (lists s))) by lia.
    reflexivity.
  - intros Hm. subst Hh. unfold next_multiple_64.
    assert (Hq : (h' + 63) / 64 = h' / 64).
    { symmetry. apply Z.div_unique with (r := 63); [lia|].
      pose proof (Z.div_mod h' 64 ltac:(lia)). lia. }
    pose proof (Z.div_mod h' 64 ltac:(lia)).
    rewrite Hq. replace (64 * (h' / 64) - h') with 0 by lia. split; reflexivity.
  - intros Hm. subst Ww. unfold next_multiple_64.
    assert (Hq : (w' + 63) / 64 = w' / 64).
    { symmetry. apply Z.div_unique with (r := 63); [lia|].
      pose proof (Z.div_mod w' 64 ltac:(lia)). lia. }
    pose proof (Z.div_mod w' 64 ltac:(lia)).
    rewrite Hq. replace (64 * (w' / 64) - w') with 0 by lia. split; reflexivity.
  - intros max_dim'.
    rewrite !(resize_image_unfold _ _ _ _ _ _ _ "pad64" _ Hsh eq_refl).
    rewrite (scale_of_ignores_max_dim h w (Some d) max_dim' max_dim min_scale "pad64")
      by reflexivity.
    reflexivity.
Qed.

(** [random.randint(0, n)] stays within its bounds. *)
Lemma randbelow_bounds (n : Z) (s : world) : 0 < n -> 0 <= randbelow n s < n.
Proof. intros Hn. unfold randbelow. apply Z.mod_pos_bound. exact Hn. Qed.

Lemma slice_len_inside (y d n : Z) :
  0 <= y -> 0 <= d -> y + d <= n -> slice_len y (y + d) n = d.
Proof.
  intros Hy Hd Hn. unfold slice_len, clip_bound.
  replace (y + d <? 0) with false by (symmetry; apply Z.ltb_ge; lia).
  replace (y <? 0) with false by (symmetry; apply Z.ltb_ge; lia).
  lia.
Qed.

(** C7. "crop" mode on a scaled image of at least [min_dim] by [min_dim]:
    whatever the random source holds, the offsets drawn satisfy
    [0 <= y <= h - min_dim] and [0 <= x <= w - min_dim], the crop recorded
    is [(y, x, min_dim, min_dim)] and lies inside the scaled image, the
    image returned is [min_dim] by [min_dim] and the window is
    [(0, 0, min_dim, min_dim)]. *)
Theorem crop_within_bounds (image resized : ndarray px) (h w h' w' d : Z)
    (rest : list Z) (max_dim : option Z) (min_scale : option Py.pynum)
    (scale : Py.pynum) (s : world) :
  shape image = h :: w :: rest ->
  0 <= d ->
  scale_of h w (Some d) max_dim min_scale "crop" = Ret scale ->
  rescale image h w scale = Ret resized ->
  shape resized = h' :: w' :: rest ->
  d <= h' -> d <= w' ->
  exists s' image' y x,
    resize_image image (Some d) max_dim min_scale "crop" s
      = (s', Ret (image', (0, 0, d, d), scale, length (lists s),
                  Some (y, x, d, d)))
    /\ 0 <= y <= h' - d /\ 0 <= x <= w' - d
    /\ y + d <= h' /\ x + d <= w'
    /\ shape image' = d :: d :: rest
    /\ lists s' !! length (lists s) = Some [(0, 0); (0, 0); (0, 0)].
Proof.
  intros Hsh Hd Hsc Hres Hs' Hh Hw.
  rewrite (resize_image_unfold _ _ _ _ _ _ _ "crop" _ Hsh eq_refl).
  rewrite Hsc, Hres. unfold pad_or_crop. cbn [String.eqb Ascii.eqb Bool.eqb].
  rewrite (crop_mode_unfold _ _ _ _ _ _ _ Hs' Hh Hw).
  set (y := randbelow (h' - d + 1) (entered s)).
  set (x := randbelow (w' - d + 1) (advance (entered s))).
  pose proof (randbelow_bounds (h' - d + 1) (entered s) ltac:(lia)) as Hy.
  pose proof (randbelow_bounds (w' - d + 1) (advance (entered s)) ltac:(lia)) as Hx.
  fold y in Hy. fold x in Hx.
  unfold slice2. rewrite Hs'. cbn [obind].
  eexists _, _, y, x. split; [reflexivity|].
  repeat (split; [lia|]). split.
  - cbn [astype shape]. rewrite !slice_len_inside by lia. reflexivity.
  - cbn. apply list_lookup_middle. reflexivity.
Qed.

End Modes.

(** ** The label map *)

Section LabelMap.
Import Np.
Context {px : Type} `{Imaging px}.

Lemma broadcast_same (w h : Z) : broadcast_shapes [w; h] [w; h] = Some [w; h].
Proof.
  unfold broadcast_shapes. cbn [rev app broadcast_rev]. rewrite !Z.eqb_refl.
  reflexivity.
Qed.

Lemma operand_index_in_range (w h a b : Z) :
  0 <= a < w -> 0 <= b < h -> operand_index [w; h] [a; b] = [a; b].
Proof.
  intros Ha Hb. unfold operand_index. cbn.
  destruct (Z.eqb_spec w 1); destruct (Z.eqb_spec h 1);
    f_equal; try lia; f_equal; lia.
Qed.

Lemma label_loop_pixels (self : @CocoDataset px) (w h : Z) (anns : list annotation) :
  forall mask : ndarray Z,
  shape mask = [w; h] ->
  (forall ann, In ann anns -> shape (annToMask ann) = [w; h]) ->
  exists m,
    label_loop self mask anns = Ret m /\ shape m = [w; h]
    /\ forall a b, 0 <= a < w -> 0 <= b < h ->
         item m [a; b] = pixel_loop self [a; b] (item mask [a; b]) anns.
Proof.
  induction anns as [|ann anns IH]; intros mask Hm Hanns.
  - exists mask. cbn. auto.
  - cbn [label_loop]. unfold maximum, mul_int. cbn [shape dtype_of item].
    rewrite Hm, (Hanns ann (or_introl eq_refl)), broadcast_same. cbn [obind].
    match goal with |- context [label_loop self ?m0 anns] =>
      destruct (IH m0) as (m & Hrun & Hshape & Hpix) end.
    + reflexivity.
    + intros ann' Hin. apply Hanns. right. exact Hin.
    + exists m. split; [exact Hrun|]. split; [exact Hshape|].
      intros a b Ha Hb. rewrite (Hpix a b Ha Hb). cbn [item pixel_loop fold_left].
      rewrite (operand_index_in_range w h a b Ha Hb). reflexivity.
Qed.

Lemma pixel_loop_max (self : @CocoDataset px) (i : list Z) (anns : list annotation) :
  forall v : Z,
  0 <= v ->
  (forall ann, In ann anns ->
     (item (annToMask ann) i = 0 \/ item (annToMask ann) i = 1)
     /\ 0 <= label_value self ann) ->
  let r := pixel_loop self i v anns in
  v <= r
  /\ (forall ann, In ann anns -> covers ann i = true -> label_value self ann <= r)
  /\ (r = v \/ exists ann, In ann anns /\ covers ann i = true
                           /\ r = label_value self ann).
Proof.
  induction anns as [|ann anns IH]; intros v Hv Hanns.
  - cbn. split; [lia|]. split; [intros ann []|]. left. reflexivity.
  - cbn [pixel_loop fold_left].
    destruct (Hanns ann (or_introl eq_refl)) as [Hbin Hlab].
    set (v' := Z.max v (item (annToMask ann) i * label_value self ann)).
    assert (Hv' : 0 <= v') by (subst v'; lia).
    destruct (IH v' Hv') as (Hge & Hall & Hex).
    { intros ann' Hin. apply Hanns. right. exact Hin. }
    fold (pixel_loop self i v' anns) in *.
    set (r := pixel_loop self i v' anns) in *.
    split; [subst v'; lia|]. split.
    + intros ann' [<-|Hin] Hc; [|apply Hall; assumption].
      unfold covers in Hc. apply Z.eqb_eq in Hc. subst v'. rewrite Hc in Hge. lia.
    + destruct Hex as [Hr|(ann' & Hin & Hc & Hr)].
      * destruct Hbin as [H0|H1].
        -- left. subst v'. rewrite H0 in Hr. lia.
        -- destruct (Z.max_spec v (label_value self ann)) as [[_ Hmax]|[_ Hmax]].
           ++ right. exists ann. split; [left; reflexivity|].
              split; [unfold covers; rewrite H1; reflexivity|].
              subst v'. rewrite H1 in Hr. lia.
           ++ left. subst v'. rewrite H1 in Hr. lia.
      * right. exists ann'. split; [right; exact Hin|]. split; assumption.
Qed.

(** C5. In [__getitem__], once the image is read and resized, the label map
    is built from the annotations that the store holds for this image and
    is what [resize_mask] is given. It has the extents of the image as
    read. In test mode every pixel holds the largest category id among the
    instances whose mask covers it; in training mode it holds [step + 1]
    where an instance covers it; in both it holds 0 where none does. The
    instance masks are binary and of the size of the image, the labels
    are class or stage numbers that a byte holds. *)
Theorem label_map_max_combine (self : @CocoDataset px) (index img_id : Z)
    (img image' imageT : ndarray px) (w h : Z) (rest : list Z) (s s' : world)
    (window : window_t) (scale : Py.pynum) (padding : loc)
    (crop : option crop_t) :
  ids_at self index = Ret img_id ->
  open_image self img_id = Ret img ->
  shape img = w :: h :: rest ->
  resize_image img (Some 1024) (Some 1024) (Some (Py.PyInt 0)) "square" s
    = (s', Ret (image', window, scale, padding, crop)) ->
  transpose_201 image' = Ret imageT ->
  (forall ann, In ann (loadAnns self img_id) ->
     instance_mask w h ann
     /\ byte_label (if test self then category_id ann else step self + 1)) ->
  exists m,
    shape m = [w; h]
    /\ (test self = true ->
        forall a b, 0 <= a < w -> 0 <= b < h ->
          (forall ann, In ann (loadAnns self img_id) -> covers ann [a; b] = true ->
             category_id ann <= item m [a; b])
          /\ ((exists ann, In ann (loadAnns self img_id) /\ covers ann [a; b] = true
                           /\ item m [a; b] = category_id ann)
              \/ ((forall ann, In ann (loadAnns self img_id) ->
                     covers ann [a; b] = false)
                  /\ item m [a; b] = 0)))
    /\ (test self = false ->
        forall a b, 0 <= a < w -> 0 <= b < h ->
          item m [a; b]
          = if existsb (fun ann => covers ann [a; b]) (loadAnns self img_id)
            then step self + 1 else 0)
    /\ getitem self index s
       = bind (resize_mask m scale padding crop)
              (fun mask =>
                 match transform self with
                 | Some (on_image, on_mask) => ret (on_image imageT, on_mask mask)
                 | None => ret (imageT, mask)
                 end) s'.
Proof.
  intros Hid Hopen Hsh Hri Htr Hstore.
  destruct (label_loop_pixels self w h (loadAnns self img_id) (zeros [w; h]) eq_refl)
    as (m & Hrun & Hshape & Hpix).
  { intros ann Hin. apply (Hstore ann Hin). }
  assert (Hmax : forall a b,
            let r := pixel_loop self [a; b] 0 (loadAnns self img_id) in
            (forall ann, In ann (loadAnns self img_id) -> covers ann [a; b] = true ->
               label_value self ann <= r)
            /\ (r = 0 \/ exists ann, In ann (loadAnns self img_id)
                                     /\ covers ann [a; b] = true
                                     /\ r = label_value self ann)).
  { intros a b.
    apply (pixel_loop_max self [a; b] (loadAnns self img_id) 0 (Z.le_refl 0)).
    intros ann Hin. destruct (Hstore ann Hin) as [[_ Hbin] Hlab].
    split; [apply Hbin|]. unfold label_value. apply Hlab. }
  assert (Hnone : forall a b,
            existsb (fun ann => covers ann [a; b]) (loadAnns self img_id) = false ->
            forall ann, In ann (loadAnns self img_id) -> covers ann [a; b] = false).
  { intros a b Hcov ann Hin. destruct (covers ann [a; b]) eqn:Hc; [|reflexivity].
    assert (existsb (fun ann => covers ann [a; b]) (loadAnns self img_id) = true)
      by (apply existsb_exists; eauto).
    congruence. }
  exists m. split; [exact Hshape|]. split; [|split].
  - intros Htest a b Ha Hb. rewrite (Hpix a b Ha Hb). cbn [zeros item].
    destruct (Hmax a b) as [Hall Hex]. unfold label_value in Hall, Hex.
    rewrite Htest in Hall, Hex. split; [exact Hall|].
    destruct Hex as [Hzero|Hsome]; [|left; exact Hsome].
    destruct (existsb (fun ann => covers ann [a; b]) (loadAnns self img_id)) eqn:Hcov.
    + apply existsb_exists in Hcov as (ann & Hin & Hc). left.
      exists ann. split; [exact Hin|]. split; [exact Hc|].
      pose proof (Hall ann Hin Hc) as Hle.
      destruct (Hstore ann Hin) as [_ Hlab]. rewrite Htest in Hlab.
      unfold byte_label in Hlab. lia.
    + right. split; [exact (Hnone a b Hcov)|exact Hzero].
  - intros Htest a b Ha Hb. rewrite (Hpix a b Ha Hb). cbn [zeros item].
    destruct (Hmax a b) as [Hall Hex]. unfold label_value in Hall, Hex.
    rewrite Htest in Hall, Hex.
    destruct (existsb (fun ann => covers ann [a; b]) (loadAnns self img_id)) eqn:Hcov.
    + apply existsb_exists in Hcov as (ann & Hin & Hc).
      pose proof (Hall ann Hin Hc) as Hle.
      destruct (Hstore ann Hin) as [_ Hlab]. rewrite Htest in Hlab.
      unfold byte_label in Hlab.
      destruct Hex as [Hzero|(_ & _ & _ & Hr)]; [lia|exact Hr].
    + destruct Hex as [Hzero|(ann & Hin & Hc & _)]; [exact Hzero|].
      rewrite (Hnone a b Hcov ann Hin) in Hc. discriminate Hc.
  - unfold getitem, bind, lift. rewrite Hid, Hopen, Hsh, Hri, Htr.
    unfold label_map. rewrite Hrun. reflexivity.
Qed.

End LabelMap.

(** ** Element type, errors and the padding list *)

Section Effects.
Import Np.
Context {px : Type} `{Imaging px}.

(** The resampled image is float64, whatever the input was. *)
Lemma rescale_is_float64 (image resized : ndarray px) (h w : Z) (rest : list Z)
    (scale : Py.pynum) :
  shape image = h :: w :: rest ->
  Py.ne scale (Py.PyInt 1) = true ->
  rescale image h w scale = Ret resized ->
  dtype_of resized = Float64.
Proof.
  intros Hsh Hne Hr. unfold rescale in Hr. rewrite Hne in Hr.
  destruct (obind (Py.int_mul h scale) Py.round) as [oh|]; [|discriminate].
  destruct (obind (Py.int_mul w scale) Py.round) as [ow|]; [|discriminate].
  cbn [obind] in Hr.
  destruct (resize_shape _ _ _ _ _ _ _ Hsh Hr) as (_ & _ & _ & Hd). exact Hd.
Qed.

(** C9. The image that [resize_image] returns has the element type of the
    image it was given, in every mode. *)
Theorem dtype_preserved (image image' : ndarray px) (min_dim max_dim : option Z)
    (min_scale : option Py.pynum) (mode : string) (s s1 : world)
    (window : window_t) (scale : Py.pynum) (padding : loc) (crop : option crop_t) :
  resize_image image min_dim max_dim min_scale mode s
    = (s1, Ret (image', window, scale, padding, crop)) ->
  dtype_of image' = dtype_of image.
Proof.
  intros Hrun.
  destruct (shape image) as [|h [|w rest]] eqn:Hsh;
    try (unfold resize_image, bind, lift, shape2 in Hrun; rewrite Hsh in Hrun;
         discriminate).
  destruct (String.eqb_spec mode "none") as [->|Hmode].
  - unfold resize_image, bind, lift, shape2, new_list in Hrun.
    rewrite Hsh in Hrun. cbn in Hrun. injection Hrun as <- <- <- <- <- <-.
    reflexivity.
  - apply String.eqb_neq in Hmode.
    rewrite (resize_image_unfold _ _ _ _ _ _ _ _ _ Hsh Hmode) in Hrun.
    destruct (scale_of h w min_dim max_dim min_scale mode); [|discriminate].
    destruct (rescale image h w a); [|discriminate].
    destruct (pad_or_crop _ _ _ _ _ _ _) as [s' [[[[final win] pd] cr]|]];
      [|discriminate].
    injection Hrun as <- <- <- <- <- <-. reflexivity.
Qed.

(** C10. A call of [resize_mask] without crop that gets as far as the
    padding removes the entry at index 2 of the caller's list, in place:
    a list of three pairs holds two afterwards, the other lists are left
    alone, the mask is padded by the two pairs that remain, and in that
    state a second call on the same list raises [IndexError]. *)
Theorem resize_mask_pops_padding (mask zoomed : ndarray Z) (scale : Py.pynum)
    (padding : loc) (s : world) (a b c : Z * Z) :
  scipy_ndimage_zoom mask [scale; scale] = Ret zoomed ->
  lists s !! padding = Some [a; b; c] ->
  exists s1,
    resize_mask mask scale padding None s = (s1, pad 0 zoomed [a; b])
    /\ lists s1 !! padding = Some [a; b]
    /\ length [a; b] = 2%nat
    /\ lists s1 !! padding <> lists s !! padding
    /\ (forall q, q <> padding -> lists s1 !! q = lists s !! q)
    /\ resize_mask mask scale padding None s1 = (s1, Raise IndexError).
Proof.
  intros Hz Hl.
  exists (mk_world (<[padding := [a; b]]> (lists s)) (random_raw s) (random_pos s)).
  assert (Hlt : (padding < length (lists s))%nat)
    by (eapply lookup_lt_Some; eassumption).
  split; [apply (resize_mask_pads _ _ _ _ _ a b c []); assumption|].
  cbn [lists]. split; [apply list_lookup_insert_eq; exact Hlt|].
  split; [reflexivity|]. split.
  - rewrite list_lookup_insert_eq, Hl by exact Hlt. intros Heq. discriminate Heq.
  - split.
    + intros q Hq. apply list_lookup_insert_ne. congruence.
    + unfold resize_mask, bind, lift, list_pop. rewrite Hz. cbn [lists].
      rewrite list_lookup_insert_eq by exact Hlt. reflexivity.
Qed.

Lemma rescale_keeps_rank (image resized : ndarray px) (h w : Z) (rest : list Z)
    (scale : Py.pynum) :
  shape image = h :: w :: rest ->
  rescale image h w scale = Ret resized ->
  exists h' w', shape resized = h' :: w' :: rest.
Proof.
  intros Hsh Hr. unfold rescale in Hr.
  destruct (Py.ne scale (Py.PyInt 1)).
  - destruct (obind (Py.int_mul h scale) Py.round) as [oh|]; [|discriminate].
    destruct (obind (Py.int_mul w scale) Py.round) as [ow|]; [|discriminate].
    cbn [obind] in Hr.
    destruct (resize_shape _ _ _ _ _ _ _ Hsh Hr) as (Hs' & _). eauto.
  - injection Hr as <-. eauto.
Qed.

(** [np.pad] of an image by two pairs and [(0, 0)]: when it returns, the
    image has three axes, no pad is negative, and the entries are those of
    the image moved by the leading pads, with the constant around them. *)
Lemma pad3_inv {A} (zero : A) (a a' : ndarray A) (h w : Z) (rest : list Z)
    (t b l r : Z) :
  shape a = h :: w :: rest ->
  pad zero a [(t, b); (l, r); (0, 0)] = Ret a' ->
  exists c,
    rest = [c] /\ 0 <= t /\ 0 <= b /\ 0 <= l /\ 0 <= r
    /\ shape a' = [t + h + b; l + w + r; c]
    /\ dtype_of a' = dtype_of a
    /\ forall i j k, 0 <= k < c ->
         item a' [i; j; k]
         = if in_window (t, l, h + t, w + l) i j then item a [i - t; j - l; k]
           else zero.
Proof.
  intros Hsh Hp. unfold pad, ndim in Hp. rewrite Hsh in Hp.
  destruct rest as [|c [|c' rest]];
    cbn [length pad_pairs Nat.eqb existsb] in Hp; try discriminate.
  unfold pair_negative in Hp. cbn [fst snd] in Hp.
  destruct ((t <? 0) || (b <? 0)) eqn:Htb; [discriminate|].
  destruct ((l <? 0) || (r <? 0)) eqn:Hlr; [discriminate|].
  cbn in Hp. injection Hp as <-.
  apply orb_false_elim in Htb as [Ht Hb]. apply orb_false_elim in Hlr as [Hl Hr].
  apply Z.ltb_ge in Ht, Hb, Hl, Hr.
  exists c. repeat (split; [first [reflexivity | assumption]|]).
  split; [cbn; do 3 f_equal; lia|]. split; [reflexivity|].
  intros i j k Hk. cbn [item inside fst snd zip_with in_window].
  replace (0 <=? k) with true by (symmetry; apply Z.leb_le; lia).
  replace (k <? 0 + c) with true by (symmetry; apply Z.ltb_lt; lia).
  replace (t + h) with (h + t) by lia. replace (l + w) with (w + l) by lia.
  replace (k - 0) with k by lia. rewrite !andb_true_r.
  destruct (t <=? i), (i <? h + t), (l <=? j), (j <? w + l); reflexivity.
Qed.





End Effects.

(** ** Identity mode *)

Section Identity.
Import Np.
Context {px : Type} `{Imaging px}.

(** C4. With [mode="none"], [resize_image] returns the image it was given,
    the window [(0, 0, h, w)], the scale [1], a padding list holding three
    [(0, 0)] pairs and no crop, whatever the other parameters are. *)
Theorem resize_image_none (image : ndarray px) (h w : Z) (rest : list Z)
    (min_dim max_dim : option Z) (min_scale : option Py.pynum) (s : world) :
  shape image = h :: w :: rest ->
  exists s' padding,
    resize_image image min_dim max_dim min_scale "none" s
      = (s', Ret (image, (0, 0, h, w), Py.PyInt 1, padding, None))
    /\ lists s' !! padding = Some [(0, 0); (0, 0); (0, 0)]
    /\ random_pos s' = random_pos s.
Proof.
  intros Hsh.
  eexists _, _. split; [|split].
  - unfold resize_image, bind, lift, shape2. rewrite Hsh. cbn. reflexivity.
  - cbn. apply list_lookup_middle. reflexivity.
  - reflexivity.
Qed.

End Identity.

(** * Concrete runs *)

Lemma mask_shape_matches_witness :
  exists s1 image' window scale padding crop,
    resize_image (demo_image 600 800) (Some 1024) (Some 1024)
                 (Some (Py.PyInt 0)) "square" demo_world
      = (s1, Ret (image', window, scale, padding, crop))
    /\ exists s2 mask',
         resize_mask (demo_mask 600 800) scale padding crop s1 = (s2, Ret mask')
         /\ Np.shape mask' = [1024; 1024]
         /\ Np.shape mask' = take 2 (Np.shape image').
Proof.
  eexists _, _, _, _, _, _. split; [vm_compute; reflexivity|].
  refine (let run := @mask_shape_matches Z demo_library
                       (demo_image 600 800) _ (demo_mask 600 800)
                       600 800 [3] (Some 1024) (Some 1024) (Some (Py.PyInt 0))
                       "square" demo_world _ _ _ _ _ eq_refl eq_refl
                       (conj eq_refl eq_refl) (conj eq_refl eq_refl) eq_refl in _).
  destruct run as (s2 & mask' & Hrun & Hshape).
  exists s2, mask'. split; [exact Hrun|]. split; [|exact Hshape].
  rewrite Hshape. reflexivity.
Defined.

Lemma square_600_800_witness :
  exists s' image' padding,
    resize_image (demo_image 600 800) (Some 1024) (Some 1024)
                 (Some (Py.PyInt 0)) "square" demo_world
      = (s', Ret (image', (128, 0, 896, 1024),
                  Py.PyFloat 0x1.47ae147ae147bp+0, padding, None))
    /\ Py.int_truediv 1024 800 = Ret 0x1.47ae147ae147bp+0%float
    /\ Np.shape image' = [1024; 1024; 3]
    /\ lists s' !! padding = Some [(128, 128); (0, 0); (0, 0)].
Proof.
  exact (square_600_800 (demo_image 600 800) 3 demo_world eq_refl).
Defined.

(** A 2000 by 2000 image in "square" mode with [max_dim=1024]: the cap
    brings the scale below 1. *)
Lemma scale_as_claimed_witness :
  exists s1 image' window f padding crop,
    resize_image (demo_image 2000 2000) (Some 1024) (Some 1024) None "square"
                 demo_world
      = (s1, Ret (image', window, Py.PyFloat f, padding, crop))
    /\ claimed_scale 2000 2000 1024 None (Some 1024) "square" = Ret (Py.PyFloat f)
    /\ Py.int_truediv 1024 2000 = Ret f
    /\ Py.lt (Py.PyFloat f) (Py.PyInt 1) = true.
Proof.
  eexists _, _, _, _, _, _. split; [vm_compute; reflexivity|].
  split; [|split; vm_compute; reflexivity].
  refine (@scale_as_claimed Z demo_library (demo_image 2000 2000) _
            2000 2000 1024 [3] (Some 1024) None "square" demo_world _ _ _ _ _
            eq_refl eq_refl eq_refl _ eq_refl).
  intros Hmode. discriminate Hmode.
Defined.

Lemma demo_anns_masks (ann : annotation) :
  In ann demo_anns -> instance_mask 1 4 ann.
Proof.
  intros [<-|[<-|[]]]; (split; [reflexivity|]); intros i; cbn;
    destruct i as [|r [|col [|k i]]]; auto;
    match goal with |- context [if ?b then _ else _] => destruct b end; auto.
Qed.

(** Labels 2 and 3 overlapping in the second column: in test mode the
    pixels read 2, 3, 3, 0; in training mode at stage 4 they read 5, 5, 5,
    0. *)
Lemma label_map_max_combine_witness :
  (exists s' image' window scale padding crop imageT m,
     resize_image (demo_image 1 4) (Some 1024) (Some 1024) (Some (Py.PyInt 0))
                  "square" demo_world
       = (s', Ret (image', window, scale, padding, crop))
     /\ Np.transpose_201 image' = Ret imageT
     /\ Np.shape m = [1; 4]
     /\ Np.item m [0; 0] = 2 /\ Np.item m [0; 1] = 3
     /\ Np.item m [0; 2] = 3 /\ Np.item m [0; 3] = 0
     /\ getitem demo_dataset 0 demo_world
        = bind (resize_mask m scale padding crop)
               (fun mask => ret (imageT, mask)) s')
  /\ (exists s' image' window scale padding crop imageT m,
        resize_image (demo_image 1 4) (Some 1024) (Some 1024) (Some (Py.PyInt 0))
                     "square" demo_world
          = (s', Ret (image', window, scale, padding, crop))
        /\ Np.transpose_201 image' = Ret imageT
        /\ Np.shape m = [1; 4]
        /\ Np.item m [0; 0] = 5 /\ Np.item m [0; 1] = 5
        /\ Np.item m [0; 2] = 5 /\ Np.item m [0; 3] = 0
        /\ getitem demo_training 0 demo_world
           = bind (resize_mask m scale padding crop)
                  (fun mask => ret (imageT, mask)) s').
Proof.
  split.
  - eexists _, _, _, _, _, _, _.
    match goal with |- exists m, ?R /\ ?T /\ _ =>
      assert (Hri : R) by (vm_compute; reflexivity);
      assert (Htr : T) by (vm_compute; reflexivity) end.
    destruct (@label_map_max_combine Z demo_library demo_dataset 0 1
                (demo_image 1 4) _ _ 1 4 [3] demo_world _ _ _ _ _
                eq_refl eq_refl eq_refl Hri Htr)
      as (m & Hshape & Htest & _ & Hrun).
    { intros ann Hin. split; [exact (demo_anns_masks ann Hin)|].
      destruct Hin as [<-|[<-|[]]]; cbn; unfold byte_label; lia. }
    exists m. split; [exact Hri|]. split; [exact Htr|]. split; [exact Hshape|].
    assert (Hpix : forall b, 0 <= b < 4 ->
              (forall ann, In ann demo_anns -> covers ann [0; b] = true ->
                 category_id ann <= Np.item m [0; b])
              /\ ((exists ann, In ann demo_anns /\ covers ann [0; b] = true
                               /\ Np.item m [0; b] = category_id ann)
                  \/ ((forall ann, In ann demo_anns -> covers ann [0; b] = false)
                      /\ Np.item m [0; b] = 0)))
      by (intros b Hb; apply (Htest eq_refl 0 b); lia).
    split; [|split; [|split; [|split; [|exact Hrun]]]].
    + destruct (Hpix 0 ltac:(lia)) as [_ [(ann & Hin & Hc & ->)|[Hno _]]].
      * destruct Hin as [<-|[<-|[]]]; [reflexivity|discriminate Hc].
      * discriminate (Hno _ (or_introl eq_refl)).
    + destruct (Hpix 1 ltac:(lia)) as [Hall [(ann & Hin & Hc & Heq)|[Hno _]]].
      * pose proof (Hall _ (or_intror (or_introl eq_refl)) eq_refl) as Hle.
        destruct Hin as [<-|[<-|[]]]; cbn in Heq, Hle; lia.
      * discriminate (Hno _ (or_introl eq_refl)).
    + destruct (Hpix 2 ltac:(lia)) as [_ [(ann & Hin & Hc & ->)|[Hno _]]].
      * destruct Hin as [<-|[<-|[]]]; [discriminate Hc|reflexivity].
      * discriminate (Hno _ (or_intror (or_introl eq_refl))).
    + destruct (Hpix 3 ltac:(lia)) as [_ [(ann & Hin & Hc & _)|[_ Hz]]]; [|exact Hz].
      destruct Hin as [<-|[<-|[]]]; discriminate Hc.
  - eexists _, _, _, _, _, _, _.
    match goal with |- exists m, ?R /\ ?T /\ _ =>
      assert (Hri : R) by (vm_compute; reflexivity);
      assert (Htr : T) by (vm_compute; reflexivity) end.
    destruct (@label_map_max_combine Z demo_library demo_training 0 1
                (demo_image 1 4) _ _ 1 4 [3] demo_world _ _ _ _ _
                eq_refl eq_refl eq_refl Hri Htr)
      as (m & Hshape & _ & Htrain & Hrun).
    { intros ann Hin. split; [exact (demo_anns_masks ann Hin)|].
      cbn. unfold byte_label. lia. }
    exists m. split; [exact Hri|]. split; [exact Htr|]. split; [exact Hshape|].
    split; [|split; [|split; [|split; [|exact Hrun]]]];
      rewrite (Htrain eq_refl) by lia; reflexivity.
Defined.

Lemma resize_image_none_witness :
  exists s' padding,
    resize_image (demo_image 600 800) (Some 1024) (Some 1024) None "none"
                 demo_world
      = (s', Ret (demo_image 600 800, (0, 0, 600, 800), Py.PyInt 1, padding, None))
    /\ lists s' !! padding = Some [(0, 0); (0, 0); (0, 0)]
    /\ random_pos s' = random_pos demo_world.
Proof.
  exact (@resize_image_none Z demo_library (demo_image 600 800) 600 800 [3]
           (Some 1024) (Some 1024) None demo_world eq_refl).
Defined.

(** A scaled height of 100 is padded to 128 by 14 rows above and 14 below. *)
Lemma pad64_geometry_witness :
  exists H W top left image',
    least_multiple_64 100 H /\ least_multiple_64 800 W
    /\ resize_image (demo_image 100 800) (Some 64) (Some 5) None "pad64" demo_world
       = (push_list [(top, H - 100 - top); (left, W - 800 - left); (0, 0)]
                    (entered demo_world),
          Ret (image', (top, left, 100 + top, 800 + left), Py.PyInt 1, 1%nat, None))
    /\ Np.shape image' = [H; W; 3]
    /\ H = 128 /\ top = 14 /\ H - 100 - top = 14
    /\ W = 832 /\ left = 16 /\ W - 800 - left = 16.
Proof.
  destruct (@pad64_geometry Z demo_library (demo_image 100 800) (demo_image 100 800)
              100 800 3 100 800 64 (Some 5) None (Py.PyInt 1) demo_world
              eq_refl eq_refl eq_refl eq_refl eq_refl)
    as (Hh & Ww & top & left & image' & HH & HW & Ht & Hl & Hrun & Hshape & _).
  exists Hh, Ww, top, left, image'.
  assert (Hh = 128 /\ Ww = 832) as [-> ->].
  { destruct HH as ([j ->] & Hle & Hmin). destruct HW as ([k ->] & Hle' & Hmin').
    pose proof (Hmin 128 ltac:(exists 2; reflexivity) ltac:(lia)).
    pose proof (Hmin' 832 ltac:(exists 13; reflexivity) ltac:(lia)). lia. }
  subst top left.
  repeat (split; [first [assumption | reflexivity]|]). reflexivity.
Defined.

(** With the random source holding 7, the crop starts at (7, 7). *)
Lemma crop_within_bounds_witness :
  exists s' image' y x,
    resize_image (demo_image 600 800) (Some 512) None None "crop" demo_world
      = (s', Ret (image', (0, 0, 512, 512), Py.PyInt 1, 0%nat,
                  Some (y, x, 512, 512)))
    /\ 0 <= y <= 600 - 512 /\ 0 <= x <= 800 - 512
    /\ y + 512 <= 600 /\ x + 512 <= 800
    /\ Np.shape image' = [512; 512; 3]
    /\ lists s' !! 0%nat = Some [(0, 0); (0, 0); (0, 0)].
Proof.
  refine (@crop_within_bounds Z demo_library (demo_image 600 800) (demo_image 600 800)
            600 800 600 800 512 [3] None None (Py.PyInt 1) demo_world
            eq_refl _ eq_refl eq_refl eq_refl _ _); lia.
Defined.


(** "crop" mode with the default [min_dim] raises as well. *)
Lemma crop_without_min_dim_raises :
  claimed_to_raise "crop" None = false
  /\ resize_image (demo_image 600 800) None None None "crop" demo_world
     = (entered demo_world, Raise TypeError).
Proof. split; reflexivity. Qed.


(** An 8-bit image resampled through float64 comes back 8-bit. *)
Lemma dtype_preserved_witness :
  exists s1 image' window scale padding crop resized,
    resize_image (demo_image 600 800) (Some 1024) (Some 1024) None "square"
                 demo_world
      = (s1, Ret (image', window, scale, padding, crop))
    /\ rescale (demo_image 600 800) 600 800 scale = Ret resized
    /\ Np.dtype_of resized = Np.Float64
    /\ Np.dtype_of image' = Np.UInt8.
Proof.
  eexists _, _, _, _, _, _, _. split; [vm_compute; reflexivity|].
  split; [vm_compute; reflexivity|]. split; [reflexivity|].
  exact (@dtype_preserved Z demo_library (demo_image 600 800) _ (Some 1024)
           (Some 1024) None "square" demo_world _ _ _ _ _ eq_refl).
Defined.

Lemma resize_mask_pops_padding_witness :
  exists s1,
    resize_mask (demo_mask 600 800) (Py.PyInt 1) 0%nat None
                (push_list [(128, 128); (0, 0); (0, 0)] demo_world)
      = (s1, Np.pad 0 (Np.mk_ndarray [600; 800] Np.Float64 (nearest (demo_mask 600 800) [600; 800]))
                    [(128, 128); (0, 0)])
    /\ lists s1 !! 0%nat = Some [(128, 128); (0, 0)]
    /\ length [(128, 128); (0, 0)] = 2%nat
    /\ lists s1 !! 0%nat
       <> lists (push_list [(128, 128); (0, 0); (0, 0)] demo_world) !! 0%nat
    /\ (forall q, q <> 0%nat ->
          lists s1 !! q
          = lists (push_list [(128, 128); (0, 0); (0, 0)] demo_world) !! q)
    /\ resize_mask (demo_mask 600 800) (Py.PyInt 1) 0%nat None s1
       = (s1, Raise IndexError).
Proof.
  exact (@resize_mask_pops_padding Z demo_library (demo_mask 600 800) _
           (Py.PyInt 1) 0%nat (push_list [(128, 128); (0, 0); (0, 0)] demo_world)
           (128, 128) (0, 0) (0, 0) eq_refl eq_refl).
Defined.

(** * More of dent.py

    What the resized image and mask hold, what the calls leave alone, and
    how [__getitem__] puts the pieces together. *)

Section Padding.
Import Np.
Context {px : Type} `{Imaging px}.

(** A run of [resize_image] in "square" or "pad64" mode that returns,
    step by step. *)
Lemma pad_modes_inv (image image' : ndarray px) (h w : Z) (rest : list Z)
    (min_dim max_dim : option Z) (min_scale : option Py.pynum) (mode : string)
    (s s1 : world) (window : window_t) (scale : Py.pynum) (padding : loc)
    (crop : option crop_t) :
  mode = "square"%string \/ mode = "pad64"%string ->
  shape image = h :: w :: rest ->
  resize_image image min_dim max_dim min_scale mode s
    = (s1, Ret (image', window, scale, padding, crop)) ->
  exists resized padded h' w' t b l r,
    scale_of h w min_dim max_dim min_scale mode = Ret scale
    /\ rescale image h w scale = Ret resized
    /\ shape resized = h' :: w' :: rest
    /\ ((mode = "square"%string
         /\ exists md, max_dim = Some md
                       /\ (t, b) = split_pad md h' /\ (l, r) = split_pad md w')
        \/ (mode = "pad64"%string
            /\ (t, b) = pad64_axis h' /\ (l, r) = pad64_axis w'))
    /\ pad px_zero resized [(t, b); (l, r); (0, 0)] = Ret padded
    /\ image' = astype px_cast padded (dtype_of image)
    /\ window = (t, l, h' + t, w' + l)
    /\ crop = None
    /\ padding = S (length (lists s))
    /\ s1 = push_list [(t, b); (l, r); (0, 0)] (entered s).
Proof.
  intros Hmode Hsh Hrun.
  assert (Hnone : (mode =? "none")%string = false)
    by (destruct Hmode as [-> | ->]; reflexivity).
  rewrite (resize_image_unfold _ _ _ _ _ _ _ _ _ Hsh Hnone) in Hrun.
  destruct (scale_of h w min_dim max_dim min_scale mode) as [sc|]; [|discriminate].
  destruct (rescale image h w sc) as [resized|] eqn:Hres; [|discriminate].
  destruct (rescale_keeps_rank _ _ _ _ _ _ Hsh Hres) as (h' & w' & Hs').
  unfold pad_or_crop in Hrun.
  assert (Hlen : length (lists (entered s)) = S (length (lists s))).
  { unfold entered, push_list. cbn. rewrite length_app. cbn. lia. }
  destruct Hmode as [-> | ->]; cbn [String.eqb Ascii.eqb Bool.eqb] in Hrun.
  - destruct max_dim as [md|].
    2:{ unfold square_mode, bind, lift, shape2 in Hrun. rewrite Hs' in Hrun.
        discriminate. }
    rewrite (square_mode_unfold _ _ _ _ _ _ _ Hs') in Hrun.
    destruct (pad px_zero resized _) as [padded|] eqn:Hpad; [|discriminate].
    cbn [obind] in Hrun. injection Hrun as <- <- <- <- <- <-.
    exists resized, padded, h', w'.
    exists (fst (split_pad md h')), (snd (split_pad md h')).
    exists (fst (split_pad md w')), (snd (split_pad md w')).
    rewrite <- !surjective_pairing.
    repeat (split; [first [reflexivity | assumption]|]).
    split; [left; split; [reflexivity|]; exists md; auto|].
    repeat (split; [first [reflexivity | assumption]|]). reflexivity.
  - destruct min_dim as [d|].
    2:{ unfold pad64_mode, bind, lift, shape2 in Hrun. rewrite Hs' in Hrun.
        discriminate. }
    destruct (Z.eqb_spec (d mod 64) 0) as [Hd|Hd].
    2:{ unfold pad64_mode, bind, lift, shape2 in Hrun. rewrite Hs' in Hrun.
        cbn [as_int] in Hrun. apply Z.eqb_neq in Hd. rewrite Hd in Hrun.
        discriminate. }
    rewrite (pad64_mode_unfold _ _ _ _ _ _ _ Hs' Hd) in Hrun.
    destruct (pad px_zero resized _) as [padded|] eqn:Hpad; [|discriminate].
    cbn [obind] in Hrun. injection Hrun as <- <- <- <- <- <-.
    exists resized, padded, h', w'.
    exists (fst (pad64_axis h')), (snd (pad64_axis h')).
    exists (fst (pad64_axis w')), (snd (pad64_axis w')).
    rewrite <- !surjective_pairing.
    repeat (split; [first [reflexivity | assumption]|]).
    split; [right; auto|].
    repeat (split; [first [reflexivity | assumption]|]). reflexivity.
Qed.

(** X1. "square" mode: the image returned is exactly [max_dim] by [max_dim];
    the window sits inside it and has the extents of the scaled image; the
    padding list holds the pads around the window. *)
Theorem square_fills_max_dim (image image' : ndarray px) (h w md : Z)
    (rest : list Z) (min_dim : option Z) (min_scale : option Py.pynum)
    (s s1 : world) (window : window_t) (scale : Py.pynum) (padding : loc)
    (crop : option crop_t) :
  shape image = h :: w :: rest ->
  resize_image image min_dim (Some md) min_scale "square" s
    = (s1, Ret (image', window, scale, padding, crop)) ->
  shape image' = md :: md :: rest
  /\ crop = None
  /\ exists resized h' w',
       rescale image h w scale = Ret resized
       /\ shape resized = h' :: w' :: rest
       /\ h' <= md /\ w' <= md
       /\ let top := (md - h') / 2 in
          let left := (md - w') / 2 in
          window = (top, left, top + h', left + w')
          /\ 0 <= top /\ top + h' <= md /\ 0 <= left /\ left + w' <= md
          /\ lists s1 !! padding
             = Some [(top, md - h' - top); (left, md - w' - left); (0, 0)].
Proof.
  intros Hsh Hrun.
  destruct (pad_modes_inv _ _ _ _ _ _ _ _ _ _ _ _ _ _ _ (or_introl eq_refl) Hsh Hrun)
    as (resized & padded & h' & w' & t & b & l & r & _ & Hres & Hs' & Hpads
        & Hpad & -> & -> & -> & -> & ->).
  destruct Hpads as [(_ & md' & Hmd & Htb & Hlr)|(Hmode & _)]; [|discriminate].
  injection Hmd as <-. unfold split_pad in Htb, Hlr.
  injection Htb as -> ->. injection Hlr as -> ->.
  destruct (pad3_inv _ _ _ _ _ _ _ _ _ _ Hs' Hpad)
    as (c & -> & Ht & Hb & Hl & Hr & Hshape & _).
  split; [cbn [astype shape]; rewrite Hshape; f_equal; [lia | f_equal; lia]|].
  split; [reflexivity|].
  exists resized, h', w'. split; [exact Hres|]. split; [exact Hs'|].
  split; [lia|]. split; [lia|]. cbv zeta.
  split; [f_equal; [f_equal|]; lia|].
  repeat (split; [lia|]).
  unfold push_list. cbn [lists]. apply list_lookup_middle.
  unfold entered, push_list. cbn. rewrite length_app. cbn. lia.
Qed.

(** X2. "square" and "pad64" mode: inside the window the image returned holds
    the resampled image, moved to the window's corner; outside it holds
    the constant 0; both converted to the element type of the input. *)
Theorem padded_image_content (image image' : ndarray px) (h w c : Z)
    (min_dim max_dim : option Z) (min_scale : option Py.pynum) (mode : string)
    (s s1 : world) (y1 x1 y2 x2 : Z) (scale : Py.pynum) (padding : loc)
    (crop : option crop_t) :
  mode = "square"%string \/ mode = "pad64"%string ->
  shape image = [h; w; c] ->
  resize_image image min_dim max_dim min_scale mode s
    = (s1, Ret (image', (y1, x1, y2, x2), scale, padding, crop)) ->
  exists resized,
    rescale image h w scale = Ret resized
    /\ shape resized = [y2 - y1; x2 - x1; c]
    /\ forall i j k, 0 <= k < c ->
         item image' [i; j; k]
         = px_cast (dtype_of image)
             (if in_window (y1, x1, y2, x2) i j
              then item resized [i - y1; j - x1; k]
              else px_zero).
Proof.
  intros Hmode Hsh Hrun.
  destruct (pad_modes_inv _ _ _ _ _ _ _ _ _ _ _ _ _ _ _ Hmode Hsh Hrun)
    as (resized & padded & h' & w' & t & b & l & r & _ & Hres & Hs' & _
        & Hpad & -> & Hwin & _).
  injection Hwin as -> -> -> ->.
  destruct (pad3_inv _ _ _ _ _ _ _ _ _ _ Hs' Hpad)
    as (c' & Hc & _ & _ & _ & _ & _ & _ & Hitem).
  injection Hc as <-.
  exists resized. split; [exact Hres|].
  split; [rewrite Hs'; f_equal; [lia | f_equal; lia]|].
  intros i j k Hk. cbn [astype item]. rewrite (Hitem i j k Hk). reflexivity.
Qed.

End Padding.

Section Aligned.
Import Np.
Context {px : Type} `{Imaging px}.

(** As [zoom_follows_rescale]; the bound on the extents is only needed
    when the image was not resampled. *)
Lemma zoom_follows_rescale_when (image image' : ndarray px) (mask : ndarray Z)
    (h w : Z) (rest : list Z) (scale : Py.pynum) :
  shape image = h :: w :: rest ->
  shape mask = [h; w] ->
  (Py.ne scale (Py.PyInt 1) = false -> 0 < h < 2 ^ 53 /\ 0 < w < 2 ^ 53) ->
  rescale image h w scale = Ret image' ->
  exists h' w',
    shape image' = h' :: w' :: rest /\ 0 < h' /\ 0 < w'
    /\ scipy_ndimage_zoom mask [scale; scale]
       = Ret (mk_ndarray [h'; w'] (dtype_of mask) (nearest mask [h'; w'])).
Proof.
  intros Hsh Hm Hb Hr.
  destruct (Py.ne scale (Py.PyInt 1)) eqn:Hne.
  - unfold rescale in Hr. rewrite Hne in Hr.
    unfold scipy_ndimage_zoom, ndim. rewrite Hm.
    cbn [length Nat.eqb negb zoom_shape].
    destruct (obind (Py.int_mul h scale) Py.round) as [oh|] eqn:Hoh; [|discriminate].
    destruct (obind (Py.int_mul w scale) Py.round) as [ow|] eqn:How; [|discriminate].
    cbn [obind] in Hr |- *.
    destruct (resize_shape _ _ _ _ _ _ _ Hsh Hr) as (Hs' & Hoh' & How' & _).
    exists oh, ow. repeat split; try assumption.
    cbn [existsb].
    replace (oh <=? 0) with false by (symmetry; apply Z.leb_gt; lia).
    replace (ow <=? 0) with false by (symmetry; apply Z.leb_gt; lia).
    reflexivity.
  - destruct (Hb eq_refl) as [Hh Hw].
    apply (zoom_follows_rescale image image' mask h w rest scale); assumption.
Qed.

(** [np.pad] of a mask by two pairs. *)
Lemma pad2_inv (a a' : ndarray Z) (h w t b l r : Z) :
  shape a = [h; w] ->
  pad 0 a [(t, b); (l, r)] = Ret a' ->
  shape a' = [t + h + b; l + w + r]
  /\ forall i j,
       item a' [i; j]
       = if in_window (t, l, h + t, w + l) i j then item a [i - t; j - l] else 0.
Proof.
  intros Hsh Hp. unfold pad, ndim in Hp. rewrite Hsh in Hp.
  cbn [length pad_pairs Nat.eqb existsb] in Hp.
  destruct (pair_negative (t, b) || (pair_negative (l, r) || false));
    [discriminate|].
  injection Hp as <-. split; [reflexivity|].
  intros i j. cbn [item inside fst snd zip_with in_window].
  replace (t + h) with (h + t) by lia. replace (l + w) with (w + l) by lia.
  rewrite !andb_true_r.
  destruct (t <=? i), (i <? h + t), (l <=? j), (j <? w + l); reflexivity.
Qed.

(** X3. "square" and "pad64" mode: the mask resized with what [resize_image]
    returned holds, inside the window, the zoomed mask moved to the
    window's corner, and background around it; the zoomed mask has the
    extents of the window. *)
Theorem padded_mask_content (image image' : ndarray px) (mask mask' : ndarray Z)
    (h w c : Z) (min_dim max_dim : option Z) (min_scale : option Py.pynum)
    (mode : string) (s s1 s2 : world) (y1 x1 y2 x2 : Z) (scale : Py.pynum)
    (padding : loc) (crop : option crop_t) :
  mode = "square"%string \/ mode = "pad64"%string ->
  shape image = [h; w; c] ->
  shape mask = [h; w] ->
  0 < h < 2 ^ 53 -> 0 < w < 2 ^ 53 ->
  resize_image image min_dim max_dim min_scale mode s
    = (s1, Ret (image', (y1, x1, y2, x2), scale, padding, crop)) ->
  resize_mask mask scale padding crop s1 = (s2, Ret mask') ->
  exists zoomed,
    scipy_ndimage_zoom mask [scale; scale] = Ret zoomed
    /\ shape zoomed = [y2 - y1; x2 - x1]
    /\ shape mask' = take 2 (shape image')
    /\ forall i j,
         item mask' [i; j]
         = if in_window (y1, x1, y2, x2) i j then item zoomed [i - y1; j - x1]
           else 0.
Proof.
  intros Hmode Hsh Hm Hh Hw Hrun Hmask.
  destruct (pad_modes_inv _ _ _ _ _ _ _ _ _ _ _ _ _ _ _ Hmode Hsh Hrun)
    as (resized & padded & h' & w' & t & b & l & r & _ & Hres & Hs' & _
        & Hpad & -> & Hwin & -> & -> & ->).
  injection Hwin as -> -> -> ->.
  destruct (zoom_follows_rescale _ _ mask _ _ _ _ Hsh Hm Hh Hw Hres)
    as (h'' & w'' & Hs'' & _ & _ & Hz).
  rewrite Hs' in Hs''. injection Hs'' as <- <-.
  set (zoomed := mk_ndarray [h'; w'] _ _) in Hz.
  erewrite resize_mask_pads in Hmask;
    [| exact Hz | apply list_lookup_middle; unfold entered, push_list; cbn;
                  rewrite length_app; cbn; lia].
  injection Hmask as _ Hmask.
  destruct (pad2_inv zoomed mask' h' w' t b l r eq_refl Hmask) as [Hshape Hitem].
  destruct (pad3_inv _ _ _ _ _ _ _ _ _ _ Hs' Hpad)
    as (c' & _ & _ & _ & _ & _ & Hshape3 & _).
  exists zoomed. split; [exact Hz|].
  split; [cbn; f_equal; [lia | f_equal; lia]|].
  split; [cbn [astype shape]; rewrite Hshape, Hshape3; reflexivity|].
  exact Hitem.
Qed.

(** A run of [resize_image] in "crop" mode that returns, step by step. *)
Lemma crop_mode_inv (image image' : ndarray px) (h w : Z) (rest : list Z)
    (min_dim max_dim : option Z) (min_scale : option Py.pynum)
    (s s1 : world) (window : window_t) (scale : Py.pynum) (padding : loc)
    (crop : option crop_t) :
  shape image = h :: w :: rest ->
  resize_image image min_dim max_dim min_scale "crop" s
    = (s1, Ret (image', window, scale, padding, crop)) ->
  exists resized h' w' d y x,
    rescale image h w scale = Ret resized
    /\ shape resized = h' :: w' :: rest
    /\ min_dim = Some d
    /\ 0 <= y <= h' - d /\ 0 <= x <= w' - d
    /\ crop = Some (y, x, d, d)
    /\ window = (0, 0, d, d)
    /\ image' = astype px_cast
                  (mk_ndarray (slice_len y (y + d) h' :: slice_len x (x + d) w' :: rest)
                     (dtype_of resized)
                     (fun i => match i with
                               | r :: c :: i' =>
                                   item resized
                                     (slice_start y h' + r :: slice_start x w' + c :: i')
                               | _ => item resized i
                               end))
                  (dtype_of image)
    /\ padding = length (lists s)
    /\ s1 = advance (advance (entered s)).
Proof.
  intros Hsh Hrun.
  rewrite (resize_image_unfold _ _ _ _ _ _ _ "crop" _ Hsh eq_refl) in Hrun.
  destruct (scale_of h w min_dim max_dim min_scale "crop") as [sc|]; [|discriminate].
  destruct (rescale image h w sc) as [resized|] eqn:Hres; [|discriminate].
  destruct (rescale_keeps_rank _ _ _ _ _ _ Hsh Hres) as (h' & w' & Hs').
  unfold pad_or_crop in Hrun. cbn [String.eqb Ascii.eqb Bool.eqb] in Hrun.
  destruct min_dim as [d|].
  2:{ unfold crop_mode, bind, lift, shape2 in Hrun. rewrite Hs' in Hrun.
      discriminate. }
  destruct (Z.ltb_spec (h' - d) 0) as [Hh|Hh].
  { unfold crop_mode, bind, lift, shape2, randint, as_int in Hrun.
    rewrite Hs' in Hrun. apply Z.ltb_lt in Hh. rewrite Hh in Hrun. discriminate. }
  destruct (Z.ltb_spec (w' - d) 0) as [Hw|Hw].
  { unfold crop_mode, bind, lift, shape2, randint, as_int in Hrun.
    rewrite Hs' in Hrun. apply Z.ltb_lt in Hw. apply Z.ltb_ge in Hh.
    rewrite Hh in Hrun. cbn [advance lists random_raw random_pos] in Hrun.
    rewrite Hw in Hrun. discriminate. }
  rewrite (crop_mode_unfold resized h' w' rest d _ _ Hs' ltac:(lia) ltac:(lia)) in Hrun.
  pose proof (randbelow_bounds (h' - d + 1) (entered s) ltac:(lia)) as Hy.
  pose proof (randbelow_bounds (w' - d + 1) (advance (entered s)) ltac:(lia)) as Hx.
  unfold slice2 in Hrun. rewrite Hs' in Hrun. cbn [obind] in Hrun.
  injection Hrun as <- <- <- <- <- <-.
  exists resized, h', w', d, (randbelow (h' - d + 1) (entered s)),
    (randbelow (w' - d + 1) (advance (entered s))).
  repeat (split; [first [reflexivity | assumption | lia]|]). reflexivity.
Qed.

(** X4. "crop" mode: the image returned and the mask resized with the crop
    that [resize_image] returned read the resampled image and the zoomed
    mask at the same offset (y, x); with a crop, [resize_mask] leaves the
    store of lists as it found it. *)
Theorem cropped_content_aligned (image image' : ndarray px) (mask : ndarray Z)
    (h w c : Z) (min_dim max_dim : option Z) (min_scale : option Py.pynum)
    (s s1 : world) (window : window_t) (scale : Py.pynum) (padding : loc)
    (crop : option crop_t) :
  shape image = [h; w; c] ->
  shape mask = [h; w] ->
  0 < h < 2 ^ 53 -> 0 < w < 2 ^ 53 ->
  (forall d, min_dim = Some d -> 0 <= d) ->
  resize_image image min_dim max_dim min_scale "crop" s
    = (s1, Ret (image', window, scale, padding, crop)) ->
  exists resized zoomed mask' y x d,
    rescale image h w scale = Ret resized
    /\ scipy_ndimage_zoom mask [scale; scale] = Ret zoomed
    /\ crop = Some (y, x, d, d)
    /\ resize_mask mask scale padding crop s1 = (s1, Ret mask')
    /\ shape image' = [d; d; c] /\ shape mask' = [d; d]
    /\ forall i j,
         item mask' [i; j] = item zoomed [y + i; x + j]
         /\ forall k, item image' [i; j; k]
                      = px_cast (dtype_of image) (item resized [y + i; x + j; k]).
Proof.
  intros Hsh Hm Hh Hw Hd Hrun.
  destruct (crop_mode_inv _ _ _ _ _ _ _ _ _ _ _ _ _ _ Hsh Hrun)
    as (resized & h' & w' & d & y & x & Hres & Hs' & -> & Hy & Hx & -> & _
        & -> & _ & _).
  pose proof (Hd d eq_refl) as Hd0.
  destruct (zoom_follows_rescale _ _ mask _ _ _ _ Hsh Hm Hh Hw Hres)
    as (h'' & w'' & Hs'' & _ & _ & Hz).
  rewrite Hs' in Hs''. injection Hs'' as <- <-.
  set (zoomed := mk_ndarray [h'; w'] _ _) in Hz.
  rewrite (resize_mask_crops _ _ _ _ _ _ _ _ _ Hz).
  unfold slice2. cbn [zoomed shape].
  assert (Hsy : slice_start y h' = y).
  { unfold slice_start, clip_bound.
    replace (y <? 0) with false by (symmetry; apply Z.ltb_ge; lia). lia. }
  assert (Hsx : slice_start x w' = x).
  { unfold slice_start, clip_bound.
    replace (x <? 0) with false by (symmetry; apply Z.ltb_ge; lia). lia. }
  eexists resized, zoomed, _, y, x, d.
  split; [exact Hres|]. split; [exact Hz|]. split; [reflexivity|].
  split; [reflexivity|].
  cbn [astype shape item]. rewrite !slice_len_inside by lia.
  split; [reflexivity|]. split; [reflexivity|].
  intros i j. rewrite Hsy, Hsx. split; [reflexivity|]. intros k. reflexivity.
Qed.

End Aligned.

Section GetItem.
Import Np.
Context {px : Type} `{Imaging px}.

Lemma scale_needs_extent (h w d : Z) (max_dim : option Z)
    (min_scale : option Py.pynum) (mode : string) (scale : Py.pynum) :
  d <> 0 ->
  scale_of h w (Some d) max_dim min_scale mode = Ret scale ->
  Z.min h w <> 0.
Proof.
  intros Hd Hsc Hmin. unfold scale_of, provided in Hsc.
  apply Z.eqb_neq in Hd. rewrite Hd in Hsc. cbn [negb as_int obind] in Hsc.
  unfold Py.int_truediv in Hsc. rewrite Hmin in Hsc. discriminate.
Qed.

(** X5. [__getitem__] without a transform, on a dataset whose annotation masks
    have the height and width of their image: when it returns, the image
    is channel-first and 1024 by 1024, the label map is 1024 by 1024, the
    random source has not been used, and two lists have been created, the
    default padding and the padding of the image with its last entry
    taken out. *)
Theorem getitem_shapes (self : @CocoDataset px) (index : Z) (s s1 : world)
    (image : ndarray px) (mask : ndarray Z) :
  transform self = None ->
  (forall id img h w rest,
     open_image self id = Ret img -> shape img = h :: w :: rest ->
     0 <= h /\ 0 <= w
     /\ forall ann, In ann (loadAnns self id) -> shape (annToMask ann) = [h; w]) ->
  getitem self index s = (s1, Ret (image, mask)) ->
  exists c a b,
    shape image = [c; 1024; 1024]
    /\ shape mask = [1024; 1024]
    /\ lists s1 = lists s ++ [[(0, 0); (0, 0); (0, 0)]; [a; b]]
    /\ random_raw s1 = random_raw s /\ random_pos s1 = random_pos s.
Proof.
  intros Htr Hstore Hrun. unfold getitem, bind, lift in Hrun.
  destruct (ids_at self index) as [id|]; [|discriminate].
  destruct (open_image self id) as [img|] eqn:Hopen; [|discriminate].
  destruct (shape img) as [|h [|w rest]] eqn:Hsh; try discriminate.
  destruct (Hstore id img h w rest Hopen Hsh) as (Hh0 & Hw0 & Hanns).
  destruct (resize_image img (Some 1024) (Some 1024) (Some (Py.PyInt 0)) "square" s)
    as [s' [[[[[image' window] scale] padding] crop]|]] eqn:Hri; [|discriminate].
  destruct (pad_modes_inv _ _ _ _ _ _ _ _ _ _ _ _ _ _ _ (or_introl eq_refl) Hsh Hri)
    as (resized & padded & h' & w' & t & b & l & r & Hsc & Hres & Hs' & Hpads
        & Hpad & -> & -> & -> & -> & ->).
  destruct Hpads as [(_ & md & Hmd & Htb & Hlr)|(Hmode & _)]; [|discriminate].
  injection Hmd as <-. unfold split_pad in Htb, Hlr.
  injection Htb as Ht Hb. injection Hlr as Hl Hr.
  destruct (pad3_inv _ _ _ _ _ _ _ _ _ _ Hs' Hpad)
    as (c & -> & Ht0 & Hb0 & Hl0 & Hr0 & Hshape & _).
  assert (Hmin : Z.min h w <> 0) by (eapply scale_needs_extent; [|exact Hsc]; lia).
  assert (Hbig : 1024 < 2 ^ 53) by reflexivity.
  unfold transpose_201 in Hrun. cbn [astype shape] in Hrun. rewrite Hshape in Hrun.
  destruct (label_loop_pixels self h w (loadAnns self id) (zeros [h; w]) eq_refl Hanns)
    as (m & Hlabel & Hmshape & _).
  unfold label_map in Hrun. rewrite Hlabel in Hrun.
  destruct (zoom_follows_rescale_when img resized m h w [c] scale Hsh Hmshape)
    as (h'' & w'' & Hs'' & _ & _ & Hz); [|exact Hres|].
  { intros Hne. unfold rescale in Hres. rewrite Hne in Hres.
    injection Hres as <-. rewrite Hsh in Hs'. injection Hs' as <- <-. lia. }
  rewrite Hs' in Hs''. injection Hs'' as <- <-.
  set (zoomed := mk_ndarray [h'; w'] _ _) in Hz.
  erewrite resize_mask_pads in Hrun;
    [| exact Hz | apply list_lookup_middle; unfold entered, push_list; cbn;
                  rewrite length_app; cbn; lia].
  destruct (pad 0 zoomed [(t, b); (l, r)]) as [mask'|] eqn:Hpm; [|discriminate].
  rewrite Htr in Hrun. injection Hrun as <- <- <-.
  destruct (pad2_inv zoomed mask' h' w' t b l r eq_refl Hpm) as [Hmask _].
  exists c, (t, b), (l, r).
  split; [cbn; f_equal; f_equal; [lia | f_equal; lia]|].
  split; [rewrite Hmask; f_equal; [lia | f_equal; lia]|].
  split; [|split; reflexivity].
  cbn [lists push_list entered].
  rewrite insert_app_r_alt by (rewrite length_app; cbn; lia).
  rewrite length_app. cbn [length].
  replace (S (length (lists s)) - (length (lists s) + 1))%nat with 0%nat by lia.
  rewrite <- app_assoc. reflexivity.
Qed.

(** X6. [self.ids[index]]: an index outside [-len, len) raises [IndexError]
    before anything is opened or created; a negative index inside it reads
    from the end. *)
Theorem getitem_index (self : @CocoDataset px) (index : Z) (s : world) :
  let n := Z.of_nat (len self) in
  (index < - n \/ n <= index -> getitem self index s = (s, Raise IndexError))
  /\ (- n <= index < 0 -> getitem self index s = getitem self (index + n) s)
  /\ (0 <= index < n ->
      exists img_id, ids self !! Z.to_nat index = Some img_id
                     /\ ids_at self index = Ret img_id).
Proof.
  intros n. subst n. unfold len. split; [|split].
  - intros Hout. unfold getitem, bind, lift, ids_at.
    destruct (Z.ltb_spec index 0).
    + replace ((index + Z.of_nat (length (ids self)) <? 0)
               || (Z.of_nat (length (ids self)) <=? index + Z.of_nat (length (ids self))))
        with true; [reflexivity|].
      symmetry. apply orb_true_iff. left. apply Z.ltb_lt. lia.
    + replace ((index <? 0) || (Z.of_nat (length (ids self)) <=? index))
        with true; [reflexivity|].
      symmetry. apply orb_true_iff. right. apply Z.leb_le. lia.
  - intros Hneg. unfold getitem, bind, lift.
    replace (ids_at self (index + Z.of_nat (length (ids self))))
      with (ids_at self index); [reflexivity|].
    assert (E1 : (index <? 0) = true) by (apply Z.ltb_lt; lia).
    assert (E2 : (index + Z.of_nat (length (ids self)) <? 0) = false)
      by (apply Z.ltb_ge; lia).
    unfold ids_at. cbv zeta. rewrite E1, !E2. reflexivity.
  - intros Hin. unfold ids_at. cbv zeta.
    replace (index <? 0) with false by (symmetry; apply Z.ltb_ge; lia).
    cbv iota.
    replace (index <? 0) with false by (symmetry; apply Z.ltb_ge; lia).
    replace (Z.of_nat (length (ids self)) <=? index) with false
      by (symmetry; apply Z.leb_gt; lia).
    cbn [orb].
    destruct (ids self !! Z.to_nat index) as [img_id|] eqn:Hl;
      [exists img_id; split; reflexivity|].
    apply lookup_ge_None in Hl. lia.
Qed.

End GetItem.

Section Frame.
Import Np.
Context {px : Type} `{Imaging px}.

Lemma extends_refl (n k : nat) (s : world) : extends n k s s.
Proof.
  split; [exists []; rewrite app_nil_r; split; [reflexivity|cbn; lia]|].
  split; [reflexivity|lia].
Qed.

Lemma extends_push (n k : nat) (l : list (Z * Z)) (s : world) :
  extends (S n) k s (push_list l s).
Proof.
  split; [exists [l]; split; [reflexivity|cbn; lia]|].
  split; [reflexivity|cbn; lia].
Qed.

Lemma extends_trans (n n' k k' : nat) (s s1 s2 : world) :
  extends n k s s1 -> extends n' k' s1 s2 -> extends (n + n') (k + k') s s2.
Proof.
  intros ((new & Hl & Hn) & Hr & Hp) ((new' & Hl' & Hn') & Hr' & Hp').
  split; [exists (new ++ new'); split;
          [rewrite Hl', Hl, app_assoc; reflexivity|rewrite length_app; lia]|].
  split; [congruence|lia].
Qed.

Lemma pad_or_crop_extends (image : ndarray px) (min_dim max_dim : option Z)
    (mode : string) (padding : loc) (crop : option crop_t) (s : world) :
  extends 1 (if (mode =? "crop")%string then 2 else 0) s
          (fst (pad_or_crop image min_dim max_dim mode padding crop s)).
Proof.
  unfold pad_or_crop.
  destruct (mode_cases mode) as [->|[->|[->|[->|(_ & Hsq & Hp & Hc)]]]];
    cbn [String.eqb Ascii.eqb Bool.eqb].
  - apply extends_refl.
  - unfold square_mode, bind, lift, new_list.
    destruct (shape2 image) as [[h w]|]; [|apply extends_refl].
    destruct (as_int max_dim) as [md|]; [|apply extends_refl].
    destruct (split_pad md h), (split_pad md w).
    destruct (pad px_zero image _); apply (extends_push 0 0).
  - unfold pad64_mode, bind, lift, new_list, raise.
    destruct (shape2 image) as [[h w]|]; [|apply extends_refl].
    destruct (as_int min_dim) as [d|]; [|apply extends_refl].
    destruct (negb (d mod 64 =? 0)); [apply extends_refl|].
    destruct (pad64_axis h), (pad64_axis w).
    destruct (pad px_zero image _); apply (extends_push 0 0).
  - unfold crop_mode, bind, lift, randint.
    destruct (shape2 image) as [[h w]|]; [|apply extends_refl].
    destruct (as_int min_dim) as [d|]; [|apply extends_refl].
    destruct (h - d <? 0); [apply extends_refl|].
    cbn [advance lists random_raw random_pos].
    destruct (w - d <? 0);
      [split; [exists []; rewrite app_nil_r; split; [reflexivity|cbn; lia]|];
       split; [reflexivity|cbn; lia]|].
    destruct (slice2 image _ _ _ _);
      (split; [exists []; rewrite app_nil_r; split; [reflexivity|cbn; lia]|];
       split; [reflexivity|cbn; lia]).
  - rewrite Hsq, Hp, Hc. apply extends_refl.
Qed.

(** X7. [resize_image], whether it returns or raises, never changes a list
    that exists already: it only creates lists, at most two. It draws from
    the random source in "crop" mode only, at most twice, and never
    reseeds it. *)
Theorem resize_image_frame (image : ndarray px) (min_dim max_dim : option Z)
    (min_scale : option Py.pynum) (mode : string) (s : world) :
  let s1 := fst (resize_image image min_dim max_dim min_scale mode s) in
  (exists new, lists s1 = lists s ++ new /\ (length new <= 2)%nat
               /\ forall p l, lists s !! p = Some l -> lists s1 !! p = Some l)
  /\ random_raw s1 = random_raw s
  /\ (random_pos s <= random_pos s1 <= random_pos s + 2)%nat
  /\ (mode <> "crop"%string -> random_pos s1 = random_pos s).
Proof.
  cbv zeta.
  assert (Hext : extends 2 (if (mode =? "crop")%string then 2 else 0) s
                   (fst (resize_image image min_dim max_dim min_scale mode s))).
  { destruct (shape image) as [|h [|w rest]] eqn:Hsh;
      try (unfold resize_image, bind, lift, shape2; rewrite Hsh;
           apply extends_refl).
    destruct (mode =? "none")%string eqn:Hnone.
    - unfold resize_image, bind, lift, shape2, new_list. rewrite Hsh, Hnone.
      cbn [fst ret].
      exact (extends_trans 1 1 0 _ s _ _
               (extends_push 0 0 [(0, 0); (0, 0); (0, 0)] s) (extends_refl _ _ _)).
    - rewrite (resize_image_unfold _ _ _ _ _ _ _ _ _ Hsh Hnone).
      pose proof (extends_push 0 0 [(0, 0); (0, 0); (0, 0)] s) as Hpush.
      fold (entered s) in Hpush.
      assert (Hstop : extends 2 (if (mode =? "crop")%string then 2 else 0) s
                        (entered s)).
      { apply (extends_trans 1 1 0 _ s (entered s) _ Hpush). apply extends_refl. }
      destruct (scale_of h w min_dim max_dim min_scale mode); [|exact Hstop].
      destruct (rescale image h w a) as [resized|]; [|exact Hstop].
      pose proof (pad_or_crop_extends resized min_dim max_dim mode
                    (length (lists s)) None (entered s)) as Hstep.
      destruct (pad_or_crop resized min_dim max_dim mode (length (lists s)) None
                            (entered s)) as [s' [[[[final win] pd] cr]|]];
        cbn [fst] in Hstep |- *;
        exact (extends_trans 1 1 0 _ s (entered s) s' Hpush Hstep). }
  destruct Hext as ((new & Hl & Hn) & Hr & Hp).
  split; [exists new; split; [exact Hl|split; [exact Hn|]]|].
  { intros p l Hpl. rewrite Hl. apply lookup_app_l_Some. exact Hpl. }
  split; [exact Hr|].
  split; [destruct (mode =? "crop")%string; lia|].
  intros Hmode. apply String.eqb_neq in Hmode. rewrite Hmode in Hp. lia.
Qed.

Lemma pad_or_crop_ignores_max_dim (image : ndarray px)
    (min_dim max_dim max_dim' : option Z) (mode : string) (padding : loc)
    (crop : option crop_t) (s : world) :
  (mode =? "square")%string = false ->
  pad_or_crop image min_dim max_dim mode padding crop s
  = pad_or_crop image min_dim max_dim' mode padding crop s.
Proof. intros Hm. unfold pad_or_crop. rewrite Hm. reflexivity. Qed.

(** X8. Outside "square" mode [max_dim] is not used: [resize_image] does the
    same, state and outcome, whatever is passed for it. *)
Theorem max_dim_only_in_square (image : ndarray px)
    (min_dim max_dim max_dim' : option Z) (min_scale : option Py.pynum)
    (mode : string) (s : world) :
  mode <> "square"%string ->
  resize_image image min_dim max_dim min_scale mode s
  = resize_image image min_dim max_dim' min_scale mode s.
Proof.
  intros Hmode. apply String.eqb_neq in Hmode.
  destruct (shape image) as [|h [|w rest]] eqn:Hsh;
    try (unfold resize_image, bind, lift, shape2; rewrite Hsh; reflexivity).
  destruct (mode =? "none")%string eqn:Hnone.
  - unfold resize_image, bind, lift, shape2, new_list. rewrite Hsh, Hnone.
    reflexivity.
  - rewrite !(resize_image_unfold _ _ _ _ _ _ _ _ _ Hsh Hnone).
    rewrite (scale_of_ignores_max_dim h w min_dim max_dim max_dim' min_scale mode Hmode).
    destruct (scale_of h w min_dim max_dim' min_scale mode); [|reflexivity].
    destruct (rescale image h w a) as [resized|]; [|reflexivity].
    rewrite (pad_or_crop_ignores_max_dim resized min_dim max_dim max_dim' mode
               _ _ _ Hmode).
    reflexivity.
Qed.

End Frame.

Section Order.
Import Np.
Context {px : Type} `{Imaging px}.

Lemma pixel_loop_permutation (self : @CocoDataset px) (i : list Z)
    (anns anns' : list annotation) :
  Permutation anns anns' ->
  forall v, pixel_loop self i v anns = pixel_loop self i v anns'.
Proof.
  induction 1 as [|ann anns anns' _ IH|a b anns|anns anns' anns'' _ IH1 _ IH2];
    intros v.
  - reflexivity.
  - cbn [pixel_loop fold_left]. apply IH.
  - cbn [pixel_loop fold_left]. f_equal. lia.
  - rewrite IH1. apply IH2.
Qed.

(** X9. The label map does not depend on the order in which the store hands
    out the annotations. *)
Theorem label_map_any_order (self : @CocoDataset px) (w h : Z)
    (anns anns' : list annotation) :
  Permutation anns anns' ->
  (forall ann, In ann anns -> shape (annToMask ann) = [w; h]) ->
  exists m m',
    label_map self w h anns = Ret m /\ label_map self w h anns' = Ret m'
    /\ shape m = [w; h] /\ shape m' = [w; h]
    /\ forall a b, 0 <= a < w -> 0 <= b < h -> item m [a; b] = item m' [a; b].
Proof.
  intros Hperm Hanns.
  assert (Hanns' : forall ann, In ann anns' -> shape (annToMask ann) = [w; h]).
  { intros ann Hin. apply Hanns. apply (Permutation_in ann (Permutation_sym Hperm) Hin). }
  unfold label_map.
  destruct (label_loop_pixels self w h anns (zeros [w; h]) eq_refl Hanns)
    as (m & Hrun & Hshape & Hpix).
  destruct (label_loop_pixels self w h anns' (zeros [w; h]) eq_refl Hanns')
    as (m' & Hrun' & Hshape' & Hpix').
  exists m, m'. repeat (split; [assumption|]).
  intros a b Ha Hb. rewrite (Hpix a b Ha Hb), (Hpix' a b Ha Hb).
  apply pixel_loop_permutation. exact Hperm.
Qed.

End Order.

Section ScaleUp.
Import Np.
Context {px : Type} `{Imaging px}.

Lemma digits_at_most (m : positive) :
  Zpos (digits2_pos m) <= 53 -> Zpos m < 2 ^ 53.
Proof.
  intros Hd. rewrite digits2_pos_size in Hd.
  pose proof (Pos.size_gt m) as Hgt.
  apply Pos2Z.pos_lt_pos in Hgt. rewrite Pos2Z.inj_pow in Hgt.
  change (Z.pos 2) with 2 in Hgt.
  assert (2 ^ Zpos (Pos.size m) <= 2 ^ 53) by (apply Z.pow_le_mono_r; lia).
  lia.
Qed.

Lemma digits_exactly (m : positive) :
  digits2_pos m = 53%positive -> 2 ^ 52 <= Zpos m.
Proof.
  intros Hd. rewrite digits2_pos_size in Hd.
  pose proof (Pos.size_le m) as Hle.
  apply Pos2Z.pos_le_pos in Hle. rewrite Pos2Z.inj_pow, Hd in Hle.
  change (Z.pos 2 ^ Z.pos 53) with (2 * 2 ^ 52) in Hle.
  rewrite Pos2Z.inj_xO in Hle. lia.
Qed.

Lemma valid_finite (s : bool) (m : positive) (e : Z) :
  valid_binary (S754_finite s m e) = true ->
  Zpos (digits2_pos m) <= 53 /\ -1074 <= e
  /\ (-1074 < e -> digits2_pos m = 53%positive).
Proof.
  cbn. unfold bounded, canonical_mantissa. intros Hv.
  apply andb_prop in Hv as [Hv _]. apply Z.eqb_eq in Hv.
  unfold fexp, emin, prec, emax in Hv. lia.
Qed.

(** The exact value of a positive finite float against the int 1. *)
Lemma above_one_exact (m : positive) (e : Z) (f : float) :
  Prim2SF f = S754_finite false m e ->
  (Py.compare_int_float 1 f = Some Lt
   <-> (0 <= e /\ 1 < Zpos m * 2 ^ e) \/ (e < 0 /\ 2 ^ (- e) < Zpos m)).
Proof.
  intros Hf. unfold Py.compare_int_float. rewrite Hf.
  destruct (Z.leb_spec 0 e) as [He|He].
  - split.
    + intros Hc. apply (inj Some) in Hc. apply -> Z.compare_lt_iff in Hc. auto.
    + intros [[_ Hc]|[Hn _]]; [|lia]. f_equal. apply Z.compare_lt_iff. exact Hc.
  - rewrite Z.mul_1_l. split.
    + intros Hc. apply (inj Some) in Hc. apply -> Z.compare_lt_iff in Hc. auto.
    + intros [[Hn _]|[_ Hc]]; [lia|]. f_equal. apply Z.compare_lt_iff. exact Hc.
Qed.

(** A float above a float above 1 is above 1. *)
Lemma above_one_chain (q f : float) :
  Py.compare_int_float 1 q = Some Lt ->
  PrimFloat.compare q f = FLt ->
  Py.compare_int_float 1 f = Some Lt.
Proof.
  intros Hq Hqf.
  pose proof (Prim2SF_valid q) as Hvq. pose proof (Prim2SF_valid f) as Hvf.
  rewrite FloatAxioms.compare_spec in Hqf.
  destruct (above_one_positive q Hq) as [Hinf|(m1 & e1 & Hq1)].
  { rewrite Hinf in Hqf. destruct (Prim2SF f) as [|[|]| |]; discriminate. }
  rewrite Hq1 in Hqf, Hvq.
  apply (above_one_exact m1 e1 q Hq1) in Hq.
  destruct (Prim2SF f) as [sf|sf| |sf m2 e2] eqn:Hf; try discriminate.
  { destruct sf; [discriminate|].
    unfold Py.compare_int_float. rewrite Hf. reflexivity. }
  destruct sf; [discriminate|].
  apply (above_one_exact m2 e2 f Hf).
  destruct (valid_finite _ _ _ Hvq) as (Hd1 & He1 & _).
  destruct (valid_finite _ _ _ Hvf) as (Hd2 & He2 & Hn2).
  pose proof (digits_at_most m1 Hd1) as Hm1.
  cbn [SFcompare flatten_cmp_opt] in Hqf.
  destruct (Z.compare_spec e1 e2) as [<-|Hlt|Hgt]; try discriminate.
  - (* same exponent: the mantissas decide *)
    assert (Hm : Zpos m1 < Zpos m2).
    { change (Pos.compare_cont Eq m1 m2) with (Pos.compare m1 m2) in Hqf.
      destruct (Pos.compare_spec m1 m2); try discriminate. lia. }
    destruct Hq as [[He Hq]|[He Hq]]; [left|right]; split; try assumption.
    + assert (0 < 2 ^ e1) by (apply Z.pow_pos_nonneg; lia). nia.
    + lia.
  - (* a larger exponent: the mantissa of [f] has all its 53 digits *)
    pose proof (digits_exactly m2 (Hn2 ltac:(lia))) as Hm2.
    assert (He1' : -53 < e1).
    { destruct Hq as [[He _]|[He Hq]]; [lia|].
      destruct (Z_lt_le_dec (-53) e1) as [|Hle]; [assumption|exfalso].
      assert (2 ^ 53 <= 2 ^ (- e1)) by (apply Z.pow_le_mono_r; lia). lia. }
    destruct (Z_lt_le_dec e2 0) as [Hneg|Hpos]; [right|left]; split; try assumption.
    + assert (2 ^ (- e2) <= 2 ^ 51) by (apply Z.pow_le_mono_r; lia).
      assert (2 ^ 52 = 2 * 2 ^ 51) by reflexivity. 
      assert (0 < 2 ^ 51) by reflexivity. lia.
    + assert (1 <= 2 ^ e2) by (apply (Z.pow_le_mono_r 2 0 e2); lia).
      assert (4 <= 2 ^ 52) by (intros Hc; discriminate Hc). nia.
Qed.

(** A number above a number that is not below 1 is not below 1. *)
Lemma raised_scale_not_below_one (s0 ms : Py.pynum) (q : float) :
  s0 = Py.max (Py.PyInt 1) (Py.PyFloat q) \/ s0 = Py.PyInt 1 ->
  Py.lt s0 ms = true ->
  Py.lt ms (Py.PyInt 1) = false.
Proof.
  intros Hs0 Hlt.
  assert (Hcases : s0 = Py.PyInt 1
                   \/ (s0 = Py.PyFloat q /\ Py.compare_int_float 1 q = Some Lt)).
  { destruct Hs0 as [-> | ->]; [|auto].
    unfold Py.max, Py.gt, Py.lt. cbn [Py.compare].
    destruct (Py.compare_int_float 1 q) as [[| |]|]; auto. }
  clear Hs0. unfold Py.lt in *.
  destruct Hcases as [-> | [-> Hq]]; destruct ms as [z|f]; cbn [Py.compare] in *.
  - destruct (Z.compare_spec 1 z); try discriminate.
    destruct (Z.compare_spec z 1); try reflexivity; lia.
  - destruct (Py.compare_int_float 1 f) as [[| |]|]; try discriminate. reflexivity.
  - (* an int above the float q *)
    destruct (above_one_positive q Hq) as [Hinf|(m & e & Hq1)].
    { unfold Py.compare_int_float in Hlt. rewrite Hinf in Hlt. discriminate. }
    apply (above_one_exact m e q Hq1) in Hq.
    unfold Py.compare_int_float in Hlt. rewrite Hq1 in Hlt.
    destruct (Z.compare_spec z 1) as [| Hz |]; try reflexivity. exfalso.
    destruct (Z.leb_spec 0 e) as [He|He]; cbn [option_map] in Hlt.
    + destruct (Z.compare_spec z (Z.pos m * 2 ^ e)); try discriminate.
      destruct Hq as [[_ Hq]|[Hn _]]; lia.
    + destruct (Z.compare_spec (z * 2 ^ (- e)) (Z.pos m)); try discriminate.
      destruct Hq as [[Hn _]|[_ Hq]]; [lia|].
      assert (0 < 2 ^ (- e)) by (apply Z.pow_pos_nonneg; lia). nia.
  - (* a float above the float q *)
    destruct (PrimFloat.compare q f) eqn:Hqf; try discriminate.
    rewrite (above_one_chain q f Hq Hqf). reflexivity.
Qed.

(** X10. Scale up but not down: outside "square" mode, where the longest side
    is capped, the scale that [resize_image] returns is never below 1,
    for every [min_dim], an int or [None], and every [min_scale], an int,
    a float or [None]. *)
Theorem scale_up_not_down (image image' : ndarray px)
    (min_dim max_dim : option Z) (min_scale : option Py.pynum) (mode : string)
    (s s1 : world) (window : window_t) (scale : Py.pynum) (padding : loc)
    (crop : option crop_t) :
  mode <> "square"%string ->
  resize_image image min_dim max_dim min_scale mode s
    = (s1, Ret (image', window, scale, padding, crop)) ->
  Py.lt scale (Py.PyInt 1) = false.
Proof.
  intros Hmode Hrun. apply String.eqb_neq in Hmode.
  destruct (shape image) as [|h [|w rest]] eqn:Hsh;
    try (unfold resize_image, bind, lift, shape2 in Hrun; rewrite Hsh in Hrun;
         discriminate).
  destruct (mode =? "none")%string eqn:Hnone.
  - unfold resize_image, bind, lift, shape2, new_list in Hrun.
    rewrite Hsh, Hnone in Hrun. injection Hrun as <- <- <- <- <- <-. reflexivity.
  - rewrite (resize_image_unfold _ _ _ _ _ _ _ _ _ Hsh Hnone) in Hrun.
    destruct (scale_of h w min_dim max_dim min_scale mode) as [sc|] eqn:Hsc;
      [|discriminate].
    destruct (rescale image h w sc); [|discriminate].
    destruct (pad_or_crop _ _ _ _ _ _ _) as [s' [[[[final win] pd] cr]|]];
      [|discriminate].
    injection Hrun as <- <- <- <- <- <-.
    unfold scale_of in Hsc. rewrite Hmode, andb_false_r in Hsc.
    set (first := if provided min_dim then _ else _) in Hsc.
    assert (Hfirst : forall s0, first = Ret s0 ->
              exists q, s0 = Py.max (Py.PyInt 1) (Py.PyFloat q) \/ s0 = Py.PyInt 1).
    { intros s0. subst first. destruct (provided min_dim).
      - destruct (as_int min_dim) as [d|]; [|discriminate]. cbn [obind].
        destruct (Py.int_truediv d (Z.min h w)) as [q|]; [|discriminate].
        cbn [obind]. intros Hs0. injection Hs0 as <-. exists q. auto.
      - intros Hs0. injection Hs0 as <-. exists 0%float. auto. }
    destruct first as [s0|]; [|discriminate]. cbn [obind] in Hsc.
    destruct (Hfirst s0 eq_refl) as [q Hs0].
    assert (Hbase : Py.lt s0 (Py.PyInt 1) = false).
    { destruct Hs0 as [-> | ->]; [|reflexivity].
      unfold Py.max, Py.gt. unfold Py.lt at 2. cbn [Py.compare].
      destruct (Py.compare_int_float 1 q) as [[| |]|] eqn:Hq; try reflexivity.
      unfold Py.lt. cbn [Py.compare]. rewrite Hq. reflexivity. }
    destruct min_scale as [ms|]; [|injection Hsc as <-; exact Hbase].
    destruct (Py.truthy ms && Py.lt s0 ms) eqn:Hraise;
      injection Hsc as <-; [|exact Hbase].
    apply andb_prop in Hraise as [_ Hlt].
    exact (raised_scale_not_below_one s0 ms q Hs0 Hlt).
Qed.

End ScaleUp.

Section Failures.
Import Np.
Context {px : Type} `{Imaging px}.

(** X11. [resize_mask] on a mask that is not 2-D raises before it reaches the
    padding list; on a padding list of fewer than three pairs, for
    instance one that an earlier call has used, it raises [IndexError].
    Either way every list is left as it was. *)
Theorem resize_mask_failures (mask : ndarray Z) (scale : Py.pynum)
    (padding : loc) (crop : option crop_t) (s : world) :
  (ndim mask <> 2%nat ->
   resize_mask mask scale padding crop s = (s, Raise RuntimeError))
  /\ (forall zoomed l,
        scipy_ndimage_zoom mask [scale; scale] = Ret zoomed ->
        lists s !! padding = Some l -> (length l < 3)%nat ->
        resize_mask mask scale padding None s = (s, Raise IndexError)).
Proof.
  split.
  - intros Hnd. unfold resize_mask, bind, lift, scipy_ndimage_zoom.
    cbn [length].
    replace (Nat.eqb 2 (ndim mask)) with false
      by (symmetry; apply Nat.eqb_neq; congruence).
    reflexivity.
  - intros zoomed l Hz Hl Hlen. unfold resize_mask, bind, lift, list_pop.
    rewrite Hz, Hl.
    replace (l !! 2%nat) with (@None (Z * Z))
      by (symmetry; apply lookup_ge_None; lia).
    reflexivity.
Qed.

Lemma label_loop_app (self : @CocoDataset px) (anns anns' : list annotation) :
  forall mask,
  label_loop self mask (anns ++ anns')
  = obind (label_loop self mask anns) (fun m => label_loop self m anns').
Proof.
  induction anns as [|ann anns IH]; intros mask; [reflexivity|].
  cbn [app label_loop].
  destruct (maximum mask (mul_int (annToMask ann) (label_value self ann)));
    [apply IH|reflexivity].
Qed.

Lemma broadcast_clash (w h w' h' : Z) :
  clash w w' \/ clash h h' -> broadcast_shapes [w; h] [w'; h'] = None.
Proof.
  intros Hc. unfold broadcast_shapes. cbn [rev app broadcast_rev].
  destruct Hc as [(Hne & H1 & H1')|(Hne & H1 & H1')].
  - apply Z.eqb_neq in Hne, H1, H1'. rewrite Hne, H1, H1'. reflexivity.
  - apply Z.eqb_neq in Hne, H1, H1'. rewrite Hne, H1, H1'.
    destruct (if w =? w' then _ else _); reflexivity.
Qed.

(** X12. An annotation whose mask was drawn for an image of another size is
    not merged silently: when its extents cannot be broadcast against the
    label map, [np.maximum] raises [ValueError] and so does the loop,
    whatever annotations follow. *)
Theorem label_map_rejects_other_size (self : @CocoDataset px) (w h w' h' : Z)
    (before after : list annotation) (bad : annotation) :
  (forall ann, In ann before -> shape (annToMask ann) = [w; h]) ->
  shape (annToMask bad) = [w'; h'] ->
  clash w w' \/ clash h h' ->
  label_map self w h (before ++ bad :: after) = Raise ValueError.
Proof.
  intros Hbefore Hbad Hclash. unfold label_map. rewrite label_loop_app.
  destruct (label_loop_pixels self w h before (zeros [w; h]) eq_refl Hbefore)
    as (m & Hrun & Hshape & _).
  rewrite Hrun. cbn [obind label_loop]. unfold maximum, mul_int.
  cbn [shape]. rewrite Hshape, Hbad, (broadcast_clash w h w' h' Hclash).
  reflexivity.
Qed.

End Failures.

(** ** Concrete runs of the further properties *)

Lemma square_fills_max_dim_witness :
  exists s1 image' window scale padding crop,
    resize_image (demo_image 600 800) (Some 1024) (Some 1024)
                 (Some (Py.PyInt 0)) "square" demo_world
      = (s1, Ret (image', window, scale, padding, crop))
    /\ Np.shape image' = [1024; 1024; 3]
    /\ window = (128, 0, 896, 1024)
    /\ lists s1 !! padding = Some [(128, 128); (0, 0); (0, 0)].
Proof.
  eexists _, _, _, _, _, _. split; [vm_compute; reflexivity|].
  destruct (@square_fills_max_dim Z demo_library (demo_image 600 800) _
              600 800 1024 [3] (Some 1024) (Some (Py.PyInt 0)) demo_world
              _ _ _ _ _ eq_refl eq_refl)
    as (Hshape & _ & _).
  split; [exact Hshape|]. split; reflexivity.
Defined.

Lemma padded_image_content_witness :
  exists s1 image' scale padding crop,
    resize_image (demo_image 600 800) (Some 1024) (Some 1024)
                 (Some (Py.PyInt 0)) "square" demo_world
      = (s1, Ret (image', (128, 0, 896, 1024), scale, padding, crop))
    /\ exists resized,
         rescale (demo_image 600 800) 600 800 scale = Ret resized
         /\ Np.shape resized = [896 - 128; 1024 - 0; 3]
         /\ Np.item image' [127; 5; 0] = 0
         /\ Np.item image' [128; 5; 0] = Np.item resized [0; 5; 0].
Proof.
  eexists _, _, _, _, _. split; [vm_compute; reflexivity|].
  destruct (@padded_image_content Z demo_library (demo_image 600 800) _
              600 800 3 (Some 1024) (Some 1024) (Some (Py.PyInt 0)) "square"
              demo_world _ 128 0 896 1024 _ _ _ (or_introl eq_refl) eq_refl
              eq_refl)
    as (resized & Hres & Hshape & Hitem).
  exists resized. split; [exact Hres|]. split; [exact Hshape|].
  split; [exact (Hitem 127 5 0 ltac:(lia))|].
  exact (Hitem 128 5 0 ltac:(lia)).
Defined.

Lemma padded_mask_content_witness :
  exists s1 image' scale padding crop s2 mask',
    resize_image (demo_image 600 800) (Some 1024) (Some 1024)
                 (Some (Py.PyInt 0)) "square" demo_world
      = (s1, Ret (image', (128, 0, 896, 1024), scale, padding, crop))
    /\ resize_mask (demo_mask 600 800) scale padding crop s1 = (s2, Ret mask')
    /\ exists zoomed,
         scipy_ndimage_zoom (demo_mask 600 800) [scale; scale] = Ret zoomed
         /\ Np.shape zoomed = [896 - 128; 1024 - 0]
         /\ Np.shape mask' = [1024; 1024]
         /\ Np.item mask' [127; 5] = 0
         /\ Np.item mask' [128; 5] = Np.item zoomed [0; 5].
Proof.
  eexists _, _, _, _, _, _, _. split; [vm_compute; reflexivity|].
  split; [vm_compute; reflexivity|].
  destruct (@padded_mask_content Z demo_library (demo_image 600 800) _
              (demo_mask 600 800) _
              600 800 3 (Some 1024) (Some 1024) (Some (Py.PyInt 0)) "square"
              demo_world _ _ 128 0 896 1024 _ _ _ (or_introl eq_refl)
              eq_refl eq_refl (conj eq_refl eq_refl) (conj eq_refl eq_refl)
              eq_refl eq_refl)
    as (zoomed & Hz & Hshape & Hm & Hitem).
  exists zoomed. split; [exact Hz|]. split; [exact Hshape|]. split; [exact Hm|].
  split; [exact (Hitem 127 5)|]. exact (Hitem 128 5).
Defined.

Lemma cropped_content_aligned_witness :
  exists s1 image' window scale padding crop,
    resize_image (demo_image 600 800) (Some 512) None None "crop" demo_world
      = (s1, Ret (image', window, scale, padding, crop))
    /\ exists resized zoomed mask' y x d,
         rescale (demo_image 600 800) 600 800 scale = Ret resized
         /\ scipy_ndimage_zoom (demo_mask 600 800) [scale; scale] = Ret zoomed
         /\ crop = Some (y, x, d, d)
         /\ resize_mask (demo_mask 600 800) scale padding crop s1 = (s1, Ret mask')
         /\ Np.shape image' = [d; d; 3] /\ Np.shape mask' = [d; d]
         /\ Np.item mask' [1; 2] = Np.item zoomed [y + 1; x + 2]
         /\ Np.item image' [1; 2; 0] = Np.item resized [y + 1; x + 2; 0].
Proof.
  eexists _, _, _, _, _, _. split; [vm_compute; reflexivity|].
  destruct (@cropped_content_aligned Z demo_library (demo_image 600 800) _
              (demo_mask 600 800) 600 800 3 (Some 512) None None demo_world
              _ _ _ _ _ eq_refl eq_refl (conj eq_refl eq_refl)
              (conj eq_refl eq_refl)
              ltac:(intros d Hd; injection Hd as <-; lia)
              eq_refl)
    as (resized & zoomed & mask' & y & x & d & Hres & Hz & Hc & Hm & Hsi & Hsm
        & Hitem).
  exists resized, zoomed, mask', y, x, d.
  repeat (split; [assumption|]).
  destruct (Hitem 1 2) as [Hmask Himg]. split; [exact Hmask|exact (Himg 0)].
Defined.

Lemma getitem_shapes_witness :
  exists s1 image mask c a b,
    getitem demo_dataset 0 demo_world = (s1, Ret (image, mask))
    /\ Np.shape image = [c; 1024; 1024]
    /\ Np.shape mask = [1024; 1024]
    /\ lists s1 = lists demo_world ++ [[(0, 0); (0, 0); (0, 0)]; [a; b]]
    /\ random_raw s1 = random_raw demo_world
    /\ random_pos s1 = random_pos demo_world.
Proof.
  assert (Hstore : forall id img h w rest,
            open_image demo_dataset id = Ret img -> Np.shape img = h :: w :: rest ->
            0 <= h /\ 0 <= w
            /\ forall ann, In ann (loadAnns demo_dataset id) ->
                           Np.shape (annToMask ann) = [h; w]).
  { intros id img h w rest Hopen Hsh. injection Hopen as <-.
    injection Hsh as <- <- <-. split; [lia|]. split; [lia|].
    intros ann [<-|[<-|[]]]; reflexivity. }
  destruct (getitem demo_dataset 0 demo_world) as [s1 [[image mask]|e]] eqn:Hrun;
    [|vm_compute in Hrun; discriminate Hrun].
  destruct (@getitem_shapes Z demo_library demo_dataset 0 demo_world s1 image mask
              eq_refl Hstore Hrun) as (c & a & b & Hfacts).
  exists s1, image, mask, c, a, b. split; [reflexivity|exact Hfacts].
Defined.

Lemma getitem_index_witness :
  getitem demo_dataset 1 demo_world = (demo_world, Raise IndexError)
  /\ getitem demo_dataset (-2) demo_world = (demo_world, Raise IndexError)
  /\ getitem demo_dataset (-1) demo_world = getitem demo_dataset 0 demo_world
  /\ exists img_id, ids_at demo_dataset 0 = Ret img_id.
Proof.
  destruct (@getitem_index Z demo_library demo_dataset 1 demo_world)
    as (Hout & _ & _).
  destruct (@getitem_index Z demo_library demo_dataset (-2) demo_world)
    as (Hout' & _ & _).
  destruct (@getitem_index Z demo_library demo_dataset (-1) demo_world)
    as (_ & Hneg & _).
  destruct (@getitem_index Z demo_library demo_dataset 0 demo_world)
    as (_ & _ & Hin).
  split; [apply Hout; right; cbn; lia|].
  split; [apply Hout'; left; cbn; lia|].
  split; [apply Hneg; cbn; lia|].
  destruct (Hin ltac:(cbn; lia)) as (img_id & _ & Hid). exists img_id. exact Hid.
Defined.

Lemma resize_image_frame_witness :
  exists s1 new,
    s1 = fst (resize_image (demo_image 600 800) (Some 512) None None "crop"
                           (push_list [(1, 2); (3, 4)] demo_world))
    /\ lists s1 = [[(1, 2); (3, 4)]] ++ new /\ (length new <= 2)%nat
    /\ lists s1 !! 0%nat = Some [(1, 2); (3, 4)]
    /\ random_raw s1 = random_raw demo_world
    /\ (0 <= random_pos s1 <= 2)%nat.
Proof.
  eexists.
  destruct (@resize_image_frame Z demo_library (demo_image 600 800) (Some 512)
              None None "crop" (push_list [(1, 2); (3, 4)] demo_world))
    as ((new & Hl & Hn & Hkeep) & Hraw & Hpos & _).
  exists new. split; [reflexivity|]. split; [exact Hl|]. split; [exact Hn|].
  split; [apply Hkeep; reflexivity|]. split; [exact Hraw|exact Hpos].
Defined.

Lemma max_dim_only_in_square_witness :
  resize_image (demo_image 600 800) (Some 512) (Some 3) None "crop" demo_world
  = resize_image (demo_image 600 800) (Some 512) None None "crop" demo_world.
Proof.
  apply (@max_dim_only_in_square Z demo_library). intros Hm. discriminate Hm.
Defined.

Lemma label_map_any_order_witness :
  exists m m',
    label_map demo_dataset 1 4 demo_anns = Ret m
    /\ label_map demo_dataset 1 4 (rev demo_anns) = Ret m'
    /\ Np.shape m = [1; 4] /\ Np.shape m' = [1; 4]
    /\ Np.item m [0; 1] = Np.item m' [0; 1].
Proof.
  destruct (@label_map_any_order Z demo_library demo_dataset 1 4 demo_anns
              (rev demo_anns) (Permutation_rev demo_anns))
    as (m & m' & Hm & Hm' & Hs & Hs' & Hitem).
  { intros ann [<-|[<-|[]]]; reflexivity. }
  exists m, m'. repeat (split; [assumption|]). apply Hitem; lia.
Defined.

Lemma scale_up_not_down_witness :
  exists s1 image' window scale padding crop,
    resize_image (demo_image 100 800) (Some 64) None (Some (Py.PyFloat 1.5))
                 "pad64" demo_world
      = (s1, Ret (image', window, scale, padding, crop))
    /\ scale = Py.PyFloat 1.5
    /\ Py.lt scale (Py.PyInt 1) = false.
Proof.
  eexists _, _, _, _, _, _. split; [vm_compute; reflexivity|].
  split; [reflexivity|].
  refine (@scale_up_not_down Z demo_library (demo_image 100 800) _ (Some 64) None
            (Some (Py.PyFloat 1.5)) "pad64" demo_world _ _ _ _ _ _ eq_refl).
  intros Hm. discriminate Hm.
Defined.

Lemma resize_mask_failures_witness :
  resize_mask (demo_image 600 800) (Py.PyInt 1) 0%nat None
              (push_list [(128, 128); (0, 0)] demo_world)
    = (push_list [(128, 128); (0, 0)] demo_world, Raise RuntimeError)
  /\ resize_mask (demo_mask 600 800) (Py.PyInt 1) 0%nat None
                 (push_list [(128, 128); (0, 0)] demo_world)
     = (push_list [(128, 128); (0, 0)] demo_world, Raise IndexError).
Proof.
  split.
  - apply (@resize_mask_failures Z demo_library). intros Hn. discriminate Hn.
  - refine (proj2 (@resize_mask_failures Z demo_library (demo_mask 600 800)
                     (Py.PyInt 1) 0%nat None
                     (push_list [(128, 128); (0, 0)] demo_world))
                  _ [(128, 128); (0, 0)] eq_refl eq_refl _).
    cbn. lia.
Defined.

Lemma label_map_rejects_other_size_witness :
  label_map demo_dataset 2 3 ([] ++ mk_annotation 2 (column_mask 0 1) :: demo_anns)
  = Raise ValueError.
Proof.
  refine (@label_map_rejects_other_size Z demo_library demo_dataset 2 3 1 4
            [] demo_anns (mk_annotation 2 (column_mask 0 1)) _ eq_refl _).
  - intros ann [].
  - right. unfold clash. lia.
Defined.
